(** * droidrun: the bounded code executor

    A shallow embedding of [src/droidrun/agent/utils/executer.py]
    ([SimpleCodeExecutor.__init__], [_execute_in_thread], [execute]) together
    with the fragment of Python's [exec] that the executor's behaviour is
    observed through: top-level assignment and name lookup against separate
    globals/locals dictionaries, name lookup from inside a function body,
    writes to the redirected output streams, [raise] (also of an exception
    whose [__str__] raises), and [time.sleep], with a clock for the timeout.

    Python objects that are mutated in place (the dictionaries passed as
    [globals] and [locals]) live in a heap and are handled by reference. *)

From Stdlib Require Import Ascii.
From stdpp Require Import gmap strings list fin_maps pretty.

(** ** Strings *)

Definition nl : string := String "010"%char EmptyString.

(** [contains needle hay]: [needle] occurs in [hay] as a substring. *)
Definition contains (needle hay : string) : Prop :=
  ∃ pre post : string, hay = pre +:+ needle +:+ post.

(** ** Python values *)

(** Entries of a builtins mapping: an ordinary builtin, or the import guard
    that safe mode installs under ["__import__"]. *)
Inductive builtin_obj :=
| BuiltinFn (name : string)
| SafeImport (allowed_modules blocked_modules : option (gset string)).

Inductive value :=
| VNone
| VInt (z : Z)
| VStr (s : string)
| VFunc (name : string) (id : nat)   (* a function object; [__name__ = name] *)
| VCallable (id : nat)               (* a callable without [__name__], such as a functools.partial object *)
| VBuiltin (b : builtin_obj)
| VBuiltinsModule                    (* the interpreter's [__builtins__] *)
| VBuiltinsDict (d : gmap string builtin_obj).

(** [tool.__name__]: [None] stands for AttributeError.  The import guard is
    a function; its name is taken to be safe_import. *)
Definition get_name (v : value) : option string :=
  match v with
  | VFunc name _ => Some name
  | VBuiltin (BuiltinFn name) => Some name
  | VBuiltin (SafeImport _ _) => Some "safe_import"
  | VBuiltinsModule => Some "builtins"
  | VNone | VInt _ | VStr _ | VCallable _ | VBuiltinsDict _ => None
  end.

(** the name of [v]'s type, as error messages print it *)
Definition type_name (v : value) : string :=
  match v with
  | VNone => "NoneType"
  | VInt _ => "int"
  | VStr _ => "str"
  | VFunc _ _ => "function"
  | VCallable _ => "functools.partial"
  | VBuiltin _ => "builtin_function_or_method"
  | VBuiltinsModule => "module"
  | VBuiltinsDict _ => "dict"
  end.

(** ** Exceptions *)

Record exn_class := ExnClass {
  cls_name : string;          (* [type(e).__name__] *)
  cls_is_Exception : bool     (* [issubclass(type(e), Exception)] *)
}.

Record exn := Exn {
  exn_class_of : exn_class;
  exn_str : string;           (* [str(e)] *)
  exn_line : nat              (* line of the statement that raised, kept in the traceback *)
}.

Global Instance exn_class_eq_dec : EqDecision exn_class.
Proof. solve_decision. Defined.

Definition ValueError : exn_class := ExnClass "ValueError" true.
Definition AttributeError : exn_class := ExnClass "AttributeError" true.
Definition NameError : exn_class := ExnClass "NameError" true.
Definition TypeError : exn_class := ExnClass "TypeError" true.
Definition SyntaxError : exn_class := ExnClass "SyntaxError" true.
Definition TimeoutError : exn_class := ExnClass "TimeoutError" true.   (* also [asyncio.TimeoutError] *)
Definition SystemExit : exn_class := ExnClass "SystemExit" false.
Definition KeyboardInterrupt : exn_class := ExnClass "KeyboardInterrupt" false.

(** ** What the interpreter supplies *)

Class PyRuntime := {
  builtin_names : gset string;     (* the names defined by the builtins module *)
  format_exc : exn → string;       (* [traceback.format_exc()] while [e] is being handled *)
  format_number : N → string       (* [format(timeout)] inside an f-string *)
}.

(** ** The heap of dictionaries *)

Abbreviation loc := nat (only parsing).
Abbreviation dict := (gmap string value) (only parsing).
Abbreviation heap := (gmap nat (gmap string value)) (only parsing).

Definition deref (h : heap) (l : loc) : dict := default ∅ (h !! l).

(** [d[k] = v] on the dictionary object at [l] *)
Definition store (h : heap) (l : loc) (k : string) (v : value) : heap :=
  <[l := <[k := v]> (deref h l)]> h.

(** a new dictionary object *)
Definition alloc (h : heap) (d : dict) : loc * heap :=
  let l := fresh (dom h) in (l, <[l := d]> h).

(** ** Capability policy *)

Definition in_opt_set (name : string) (s : option (gset string)) : bool :=
  match s with
  | Some s => bool_decide (name ∈ s)
  | None => false
  end.

(** Modelled from the spec: [create_safe_builtins] and [create_safe_import]
    are imported from [droidrun.config_manager.safe_execution], which is not
    among the sources.  Section 4.1 of the specification describes them
    through one decision function: with [allowed] unset every name passes,
    otherwise only the names in [allowed]; a name in [blocked] is denied
    whatever [allowed] says. *)
Definition decision_fn (allowed blocked : option (gset string)) (name : string) : bool :=
  if in_opt_set name blocked then false
  else match allowed with
       | None => true
       | Some a => bool_decide (name ∈ a)
       end.

Section runtime.
Context {rt : PyRuntime}.

Definition full_builtins : gmap string builtin_obj :=
  set_to_map (λ n, (n, BuiltinFn n)) builtin_names.

(** Modelled from the spec: the restricted builtins mapping is the full
    builtins mapping filtered through the decision function (section 4.1);
    the function itself is in the absent module [safe_execution]. *)
Definition create_safe_builtins (allowed blocked : option (gset string))
  : gmap string builtin_obj :=
  filter (λ kv, decision_fn allowed blocked kv.1 = true) full_builtins.

(** Modelled from the spec: the import guard checks the requested module name
    with the decision function at import time (section 4.1); the function
    itself is in the absent module [safe_execution]. *)
Definition create_safe_import (allowed blocked : option (gset string)) : builtin_obj :=
  SafeImport allowed blocked.

Definition import_permitted (guard : builtin_obj) (module : string) : bool :=
  match guard with
  | SafeImport allowed blocked => decision_fn allowed blocked module
  | BuiltinFn _ => true
  end.

(** ** The executor object *)

Record SimpleCodeExecutor := {
  safe_mode : bool;
  globals : loc;
  locals : loc;
  use_same_scope : bool
}.

(** The [tools] argument, by the two [isinstance] tests of [__init__].  The
    tools dictionary is only read, so it is passed by its contents. *)
Inductive tools_arg :=
| ToolsDict (d : gmap string value)
| ToolsList (ts : list value)
| ToolsOther (v : value).

(** [for tool in tools: globals[tool.__name__] = tool] *)
Fixpoint add_tools (h : heap) (gl : loc) (ts : list value) : heap * option exn :=
  match ts with
  | [] => (h, None)
  | tool :: ts' =>
      match get_name tool with
      | Some name => add_tools (store h gl name tool) gl ts'
      | None =>
          (h, Some (Exn AttributeError
                      ("'" +:+ type_name tool +:+ "' object has no attribute '__name__'") 109))
      end
  end.

(** [globals.update(tools)]: the entries of [tools] win. *)
Definition update (h : heap) (gl : loc) (tools : gmap string value) : heap :=
  <[gl := tools ∪ deref h gl]> h.

Definition __init__ (h : heap) (locals0 globals0 : option loc) (tools : option tools_arg)
    (use_same_scope0 safe_mode0 : bool)
    (allowed_modules blocked_modules allowed_builtins blocked_builtins : option (gset string))
  : heap * (exn + SimpleCodeExecutor) :=
  let '(ll, h) := match locals0 with Some l => (l, h) | None => alloc h ∅ end in
  let '(gl, h) := match globals0 with Some l => (l, h) | None => alloc h ∅ end in
  let tools := default (ToolsDict ∅) tools in
  let h :=
    if safe_mode0 then
      let safe_builtins_dict := create_safe_builtins allowed_builtins blocked_builtins in
      let safe_builtins_dict :=
        <["__import__" := create_safe_import allowed_modules blocked_modules]> safe_builtins_dict in
      store h gl "__builtins__" (VBuiltinsDict safe_builtins_dict)
    else store h gl "__builtins__" VBuiltinsModule in
  let '(h, raised) :=
    match tools with
    | ToolsDict d => (update h gl d, None)
    | ToolsList ts => add_tools h gl ts
    | ToolsOther _ =>
        (h, Some (Exn ValueError "Tools must be a dictionary or a list of functions." 111))
    end in
  match raised with
  | Some e => (h, inl e)
  | None =>
      if use_same_scope0 then
        let merged :=
          deref h ll ∪ filter (λ kv, kv.1 ∉ dom (deref h ll)) (deref h gl) in
        let '(l, h) := alloc h merged in
        (h, inr {| safe_mode := safe_mode0; globals := l; locals := l;
                   use_same_scope := use_same_scope0 |})
      else
        (h, inr {| safe_mode := safe_mode0; globals := gl; locals := ll;
                   use_same_scope := use_same_scope0 |})
  end.

(** ** The executed code

    A code string is modelled by what compiling it gives: a syntax error, or
    a sequence of top-level statements, one per line.  An expression is
    evaluated at top level or, under [ELambdaCall], in the body of a function
    the code defines. *)

Inductive expr :=
| ELit (v : value)
| EName (x : string)
| ELambdaCall (body : expr).               (* [(lambda: body)()] *)

Inductive stmt :=
| SAssign (x : string) (e : expr)          (* [x = e] *)
| SWriteOut (e : expr)                     (* [sys.stdout.write(e)] *)
| SWriteErr (e : expr)                     (* [sys.stderr.write(e)] *)
| SRaise (c : exn_class) (msg : string)    (* [raise C(msg)] *)
| SRaiseUnprintable (c inner : exn_class) (msg : string)
    (* [raise C()] for a class [C] of the code whose [__str__] does [raise inner(msg)] *)
| SSleep (d : N).                          (* [time.sleep(d)] *)

(** An exception object as the executed code raises it.  The code can define
    exception classes of its own, and with them what [type(e).__name__] and
    [str(e)] do: evaluate to strings, or raise. *)
Inductive exception :=
| Plain (e : exn)
    (* [type(e).__name__] and [str(e)] evaluate, to [cls_name] and [exn_str] *)
| Unprintable (c : exn_class) (line : nat) (inner : exception).
    (* an instance of [c], raised at [line], for which [str(e)] (or, through a
       metaclass, [type(e).__name__]) raises [inner] *)

(** [type(e)] *)
Definition raised_class (e : exception) : exn_class :=
  match e with
  | Plain e => exn_class_of e
  | Unprintable c _ _ => c
  end.

Inductive code :=
| Unparsable (msg : string) (line : nat)
| Program (body : list stmt).

Record run_state := RunState {
  rs_heap : heap;
  rs_stdout : string;     (* the StringIO that stdout is redirected to *)
  rs_stderr : string;     (* the StringIO that stderr is redirected to *)
  rs_clock : N            (* time spent so far *)
}.

Abbreviation fault := (exn_class * string)%type (only parsing).

Definition name_error (x : string) : fault :=
  (NameError, "name '" +:+ x +:+ "' is not defined").

(** Lookup in the frame's builtins, the value of [globals["__builtins__"]]. *)
Definition load_builtin (builtins : value) (x : string) : fault + value :=
  match builtins with
  | VBuiltinsModule =>
      match full_builtins !! x with
      | Some b => inr (VBuiltin b)
      | None => inl (name_error x)
      end
  | VBuiltinsDict d =>
      match d !! x with
      | Some b => inr (VBuiltin b)
      | None => inl (name_error x)
      end
  | v => inl (TypeError, "'" +:+ type_name v +:+ "' object is not subscriptable")
  end.

(** LOAD_NAME: locals, then globals, then builtins. *)
Definition load_name (h : heap) (gl ll : loc) (builtins : value) (x : string)
  : fault + value :=
  match deref h ll !! x with
  | Some v => inr v
  | None =>
      match deref h gl !! x with
      | Some v => inr v
      | None => load_builtin builtins x
      end
  end.

(** LOAD_GLOBAL, for a name that is free in a function body: globals, then
    builtins.  The locals mapping of [exec] is not consulted. *)
Definition load_global (h : heap) (gl : loc) (builtins : value) (x : string)
  : fault + value :=
  match deref h gl !! x with
  | Some v => inr v
  | None => load_builtin builtins x
  end.

(** An expression in the body of a function defined by the code; the
    function's globals are the globals of [exec]. *)
Fixpoint eval_body (h : heap) (gl : loc) (builtins : value) (e : expr) : fault + value :=
  match e with
  | ELit v => inr v
  | EName x => load_global h gl builtins x
  | ELambdaCall body => eval_body h gl builtins body
  end.

(** An expression at top level. *)
Definition eval (h : heap) (gl ll : loc) (builtins : value) (e : expr) : fault + value :=
  match e with
  | ELit v => inr v
  | EName x => load_name h gl ll builtins x
  | ELambdaCall body => eval_body h gl builtins body
  end.

(** [StringIO.write]: only strings are accepted. *)
Definition write (buf : string) (v : value) : fault + string :=
  match v with
  | VStr s => inr (buf +:+ s)
  | _ => inl (TypeError, "string argument expected, got '" +:+ type_name v +:+ "'")
  end.

Definition raise_at (line : nat) (rs : run_state) (f : fault) : run_state * option exception :=
  (rs, Some (Plain (Exn f.1 f.2 line))).

Definition exec_stmt (gl ll : loc) (builtins : value) (line : nat)
    (rs : run_state) (s : stmt) : run_state * option exception :=
  match s with
  | SAssign x e =>
      match eval (rs_heap rs) gl ll builtins e with
      | inl f => raise_at line rs f
      | inr v =>
          (* STORE_NAME writes to the locals mapping *)
          (RunState (store (rs_heap rs) ll x v) (rs_stdout rs) (rs_stderr rs) (rs_clock rs),
           None)
      end
  | SWriteOut e =>
      match eval (rs_heap rs) gl ll builtins e with
      | inl f => raise_at line rs f
      | inr v =>
          match write (rs_stdout rs) v with
          | inl f => raise_at line rs f
          | inr out => (RunState (rs_heap rs) out (rs_stderr rs) (rs_clock rs), None)
          end
      end
  | SWriteErr e =>
      match eval (rs_heap rs) gl ll builtins e with
      | inl f => raise_at line rs f
      | inr v =>
          match write (rs_stderr rs) v with
          | inl f => raise_at line rs f
          | inr err => (RunState (rs_heap rs) (rs_stdout rs) err (rs_clock rs), None)
          end
      end
  | SRaise c msg => raise_at line rs (c, msg)
  | SRaiseUnprintable c inner msg => (rs, Some (Unprintable c line (Plain (Exn inner msg line))))
  | SSleep d =>
      (RunState (rs_heap rs) (rs_stdout rs) (rs_stderr rs) (rs_clock rs + d)%N, None)
  end.

Fixpoint exec_stmts (gl ll : loc) (builtins : value) (line : nat)
    (rs : run_state) (body : list stmt) : run_state * option exception :=
  match body with
  | [] => (rs, None)
  | s :: rest =>
      match exec_stmt gl ll builtins line rs s with
      | (rs', None) => exec_stmts gl ll builtins (S line) rs' rest
      | raised => raised
      end
  end.

(** [exec] puts a reference to the builtins module into globals that carry
    no ["__builtins__"]. *)
Definition ensure_builtins (h : heap) (gl : loc) : heap :=
  match deref h gl !! "__builtins__" with
  | Some _ => h
  | None => store h gl "__builtins__" VBuiltinsModule
  end.

(** [exec(code, globals, locals)] with both streams redirected to the buffers
    of [rs].  The frame's builtins are fixed when the frame is made. *)
Definition exec (c : code) (gl ll : loc) (rs : run_state) : run_state * option exception :=
  let h := ensure_builtins (rs_heap rs) gl in
  let builtins := default VBuiltinsModule (deref h gl !! "__builtins__") in
  let rs := RunState h (rs_stdout rs) (rs_stderr rs) (rs_clock rs) in
  match c with
  | Unparsable msg line => (rs, Some (Plain (Exn SyntaxError msg line)))
  | Program body => exec_stmts gl ll builtins 1 rs body
  end.

(** ** Running code *)

Abbreviation context := nat (only parsing).

(** The objects the executor works on: the heap of dictionaries and the
    module-level slot [async_utils._exec_context]. *)
Record world := World {
  w_heap : heap;
  _exec_context : option context
}.

Record ExecuterState := { ui_state : value }.

(** [_execute_in_thread] returns the world it leaves, the time the call took,
    and either the exception that escapes or the output string. *)
Definition _execute_in_thread (w : world) (self : SimpleCodeExecutor)
    (code0 : code) (ui_state0 : value) (ctx : option context)
  : world * N * (exception + string) :=
  let h := store (w_heap w) (globals self) "ui_state" ui_state0 in
  let slot := match ctx with Some c => Some c | None => _exec_context w end in
  let stdout := "" in
  let stderr := "" in
  let output := "" in
  (* try *)
  let '(rs, raised) := exec code0 (globals self) (locals self) (RunState h stdout stderr 0) in
  let result : exception + string :=
    match raised with
    | None =>
        let output := rs_stdout rs in
        inr (if decide (rs_stderr rs = "") then output
             else output +:+ nl +:+ rs_stderr rs)
    | Some (Plain e) =>
        (* except Exception as e *)
        if cls_is_Exception (exn_class_of e) then
          let output := "Error: " +:+ cls_name (exn_class_of e) +:+ ": " +:+ exn_str e +:+ nl in
          inr (output +:+ format_exc e)
        else inl (Plain e)
    | Some (Unprintable c line inner) =>
        (* except Exception as e: building the f-string raises, and the
           exception leaves the handler *)
        if cls_is_Exception c then inl inner
        else inl (Unprintable c line inner)
    end in
  (* finally *)
  let slot := match ctx with Some _ => None | None => slot end in
  (World (rs_heap rs) slot, rs_clock rs, result).

(** *** A worker that misses the deadline

    [execute] runs [_execute_in_thread] in a worker thread, taken to start
    at the call, and waits for it for at most [timeout].  A worker that
    misses the deadline is not stopped:
    [execute] returns while it is still running, and the worker goes on until
    it has finished.  Every step of the worker takes place at a time on its
    clock, which only [time.sleep] advances, and what takes no time is done at
    once: when the deadline passes, the steps at times up to the deadline
    have been done. *)

Definition duration (s : stmt) : N :=
  match s with
  | SSleep d => d
  | _ => 0%N
  end.

(** The statements of [body] that have begun when [deadline] passes, the
    first one beginning at [clock]. *)
Fixpoint begun_by (deadline clock : N) (body : list stmt) : list stmt :=
  match body with
  | [] => []
  | s :: rest =>
      if (clock <=? deadline)%N then s :: begun_by deadline (clock + duration s)%N rest
      else []
  end.

(** The world as the worker has made it when [deadline] passes.  A worker
    whose time is up by then has finished.  One that is still running is in a
    [time.sleep]: the assignments that open [_execute_in_thread] and the
    statements begun by the deadline are done, the [finally] block is not.
    (No statement begun by the deadline has raised: the worker would have
    ended by then.) *)
Definition worker_at (w : world) (self : SimpleCodeExecutor) (code0 : code)
    (ui_state0 : value) (ctx : context) (deadline : N) : world :=
  let '(w_done, elapsed, _) := _execute_in_thread w self code0 ui_state0 (Some ctx) in
  if (elapsed <=? deadline)%N then w_done
  else
    let h := store (w_heap w) (globals self) "ui_state" ui_state0 in
    let begun :=
      match code0 with
      | Program body => begun_by deadline 0 body
      | Unparsable _ _ => []
      end in
    let '(rs, _) := exec (Program begun) (globals self) (locals self) (RunState h "" "" 0) in
    World (rs_heap rs) (Some ctx).

(** [execute]: the worker's result is awaited for at most [timeout].  [ctx] is
    the context that [contextvars.copy_context()] captures at the call.  The
    world returned is the one at the time [execute] returns: the world the
    worker leaves when it has ended within the timeout, and otherwise the
    world at the deadline, the worker still running. *)
Definition execute (w : world) (self : SimpleCodeExecutor) (state : ExecuterState)
    (code0 : code) (timeout : N) (ctx : context) : world * (exception + string) :=
  let ui_state0 := ui_state state in
  let '(w_done, elapsed, r) := _execute_in_thread w self code0 ui_state0 (Some ctx) in
  (* asyncio.wait_for *)
  let in_time := (elapsed <? timeout)%N in
  let w' := if in_time then w_done else worker_at w self code0 ui_state0 ctx timeout in
  let awaited : exception + string :=
    if in_time then r else inl (Plain (Exn TimeoutError "" 0)) in
  match awaited with
  | inr output => (w', inr output)
  | inl e =>
      (* except asyncio.TimeoutError *)
      if decide (raised_class e = TimeoutError) then
        (w', inr ("Error: Execution timed out after " +:+ format_number timeout +:+ " seconds"))
      else (w', inl e)
  end.

(** ** Observations on a run *)

(** What the [exec] call inside [_execute_in_thread] does: the state it
    leaves (heap, captured streams, time spent) and the exception it raises,
    if any. *)
Definition run_code (w : world) (self : SimpleCodeExecutor) (code0 : code)
    (ui_state0 : value) : run_state * option exception :=
  exec code0 (globals self) (locals self)
    (RunState (store (w_heap w) (globals self) "ui_state" ui_state0) "" "" 0).

(** The text built by the [except Exception] branch. *)
Definition error_text (e : exn) : string :=
  "Error: " +:+ cls_name (exn_class_of e) +:+ ": " +:+ exn_str e +:+ nl +:+ format_exc e.

(** The mapping from tool identifier to tool that [__init__] installs: the
    dictionary itself, or the list's elements under their [__name__], a
    later element replacing an earlier one of the same name. *)
Fixpoint list_bindings (ts : list value) : gmap string value :=
  match ts with
  | [] => ∅
  | tool :: ts' =>
      match get_name tool with
      | Some name => list_bindings ts' ∪ {[name := tool]}
      | None => list_bindings ts'
      end
  end.

Definition tool_bindings (tools : option tools_arg) : gmap string value :=
  match tools with
  | Some (ToolsDict d) => d
  | Some (ToolsList ts) => list_bindings ts
  | Some (ToolsOther _) | None => ∅
  end.

(** The contents of a dictionary argument before the call; an omitted
    argument stands for a new empty dictionary. *)
Definition initial_dict (h : heap) (arg : option loc) : gmap string value :=
  match arg with
  | Some l => deref h l
  | None => ∅
  end.

(** The value [__init__] stores under ["__builtins__"]. *)
Definition installed_builtins (safe_mode0 : bool)
    (allowed_modules blocked_modules allowed_builtins blocked_builtins : option (gset string))
  : value :=
  if safe_mode0 then
    VBuiltinsDict (<["__import__" := create_safe_import allowed_modules blocked_modules]>
                     (create_safe_builtins allowed_builtins blocked_builtins))
  else VBuiltinsModule.

End runtime.

(** ** A concrete runtime and concrete objects, for closed examples *)

Definition sample_runtime : PyRuntime := {|
  builtin_names := {["print"; "len"; "str"; "open"; "__import__"]};
  format_exc := λ e,
    "Traceback (most recent call last):" +:+ nl +:+
    "  File <string>, line " +:+ pretty (exn_line e) +:+ ", in <module>" +:+ nl +:+
    cls_name (exn_class_of e) +:+ ": " +:+ exn_str e +:+ nl;
  format_number := λ n, pretty n +:+ ".0"
|}.

Definition no_state : ExecuterState := {| ui_state := VNone |}.

(** An executor with separate scopes, as [SimpleCodeExecutor(use_same_scope=False)]
    leaves it: globals at 1, locals at 0. *)
Definition sample_executor : SimpleCodeExecutor :=
  {| safe_mode := false; globals := 1; locals := 0; use_same_scope := false |}.

Definition sample_world : world :=
  World (<[1 := {["__builtins__" := VBuiltinsModule]}]> (<[0 := ∅]> ∅)) None.

Definition tap : value := VFunc "tap" 0.
Definition partial_tap : value := VCallable 1.

(** * The agent: [src/droidrun/agent/droid/droid_agent.py]

    [DroidAgent] drives collaborators whose code is elsewhere: the planner
    and its LLM, the task manager, the CodeAct agent, the tools object.  They
    are taken as an interface ([Collaborators]); a call into one of them may
    change any object of the agent's world and may raise.  The methods of
    [DroidAgent] are written in a state-and-exception monad over that world. *)

(** ** Python values at the agent level *)

Inductive pyval :=
| PNone
| PBool (b : bool)
| PInt (z : Z)
| PStr (s : string)
| PObj (id : nat) (truth : bool).   (* any other object, with the truth value it has in a test *)

Global Instance pyval_eq_dec : EqDecision pyval.
Proof. solve_decision. Defined.

(** the truth value of [v] in [if v], [v or ...], [not v] *)
Definition truthy (v : pyval) : bool :=
  match v with
  | PNone => false
  | PBool b => b
  | PInt z => negb (z =? 0)%Z
  | PStr s => negb (bool_decide (s = ""))
  | PObj _ truth => truth
  end.

(** [a or b] *)
Definition py_or (a b : pyval) : pyval := if truthy a then a else b.

(** [a == b]; a bool compares as the integer it is, an opaque object by
    identity. *)
Definition py_eq (a b : pyval) : bool :=
  match a, b with
  | PNone, PNone => true
  | PBool x, PBool y => bool_decide (x = y)
  | PInt x, PInt y => (x =? y)%Z
  | PBool x, PInt y | PInt y, PBool x => (y =? (if x then 1 else 0))%Z
  | PStr x, PStr y => bool_decide (x = y)
  | PObj i _, PObj j _ => bool_decide (i = j)
  | _, _ => false
  end.

(** [d1 == d2] for dictionaries: the same keys, with equal values. *)
Definition dict_eq (d1 d2 : gmap string pyval) : bool :=
  bool_decide (map_relation (λ _ a b, py_eq a b = true) (λ _ _, False) (λ _ _, False) d1 d2).

Definition KeyError : exn_class := ExnClass "KeyError" true.

(** [KeyError(key)]; its [str] is the [repr] of the key. *)
Definition key_error (key : string) (line : nat) : exn :=
  Exn KeyError ("'" +:+ key +:+ "'") line.

(** What [codeact_agent.run] returns: a dictionary, or anything else. *)
Inductive agent_result :=
| RDict (d : gmap string pyval)
| RValue (v : pyval).

(** The attributes of [tools_instance] that the agent resets and reads. *)
Record tools_instance := {
  finished : pyval;
  success : pyval;
  reason : pyval
}.

(** ** The agent's world *)

Record agent_world (E : Type) := AgentWorld {
  aw_tasks : gmap nat (gmap string pyval);      (* the task dictionaries, by reference *)
  aw_tools : tools_instance;                    (* [self.tools_instance] *)
  aw_trajectory : list (gmap string pyval);     (* [self.trajectory_steps] *)
  aw_env : E                                    (* the state of the collaborators *)
}.
Arguments AgentWorld {E}.
Arguments aw_tasks {E}.
Arguments aw_tools {E}.
Arguments aw_trajectory {E}.
Arguments aw_env {E}.

(** A computation on the world that returns or raises. *)
Definition M (E A : Type) : Type := agent_world E → agent_world E * (exn + A).

Global Instance M_ret (E : Type) : MRet (M E) := λ A a w, (w, inr a).

Global Instance M_bind (E : Type) : MBind (M E) := λ A B k m w,
  match m w with
  | (w', inr a) => k a w'
  | (w', inl e) => (w', inl e)
  end.

Definition raise {E A : Type} (e : exn) : M E A := λ w, (w, inl e).

(** [try: body  except Exception as e: handler e] *)
Definition try_except {E A : Type} (body : M E A) (handler : exn → M E A) : M E A := λ w,
  match body w with
  | (w', inl e) =>
      if cls_is_Exception (exn_class_of e) then handler e w' else (w', inl e)
  | (w', inr a) => (w', inr a)
  end.

Class Collaborators (E : Type) := {
  (* class attributes of the task manager *)
  STATUS_PENDING : pyval;
  STATUS_ATTEMPTING : pyval;
  STATUS_COMPLETED : pyval;
  STATUS_FAILED : pyval;
  (* [str] of an opaque object *)
  obj_str : nat → string;
  (* [await self.codeact_agent.run(input=...)] *)
  codeact_run : pyval → M E agent_result;
  (* [self.codeact_agent.steps_counter], written and read *)
  set_steps_counter : pyval → E → E;
  steps_counter : E → pyval;
  (* [await self._get_plan_from_planner()]: the task dictionaries of the plan *)
  get_plan : M E (list nat);
  (* [self.task_manager.task_completed], [self.task_manager.message] *)
  task_completed : E → pyval;
  message : E → pyval;
  (* [self.task_manager.update_status(task_idx, status, result_info)] *)
  update_status : nat → pyval → gmap string pyval → M E unit;
  (* [self.task_manager.get_task_history()] *)
  get_task_history : M E pyval
}.

Section agent.
Context {E : Type} {collaborators : Collaborators E}.

(** [str(v)] *)
Definition py_str (v : pyval) : string :=
  match v with
  | PNone => "None"
  | PBool true => "True"
  | PBool false => "False"
  | PInt z => pretty z
  | PStr s => s
  | PObj id _ => obj_str id
  end.

Definition task_dict (w : agent_world E) (task : nat) : gmap string pyval :=
  default ∅ (aw_tasks w !! task).

(** [task[key]] *)
Definition getitem (task : nat) (key : string) (line : nat) : M E pyval := λ w,
  match task_dict w task !! key with
  | Some v => (w, inr v)
  | None => (w, inl (key_error key line))
  end.

(** [task[key] = v] *)
Definition setitem (task : nat) (key : string) (v : pyval) : M E unit := λ w,
  (AgentWorld (<[task := <[key := v]> (task_dict w task)]> (aw_tasks w))
     (aw_tools w) (aw_trajectory w) (aw_env w), inr tt).

(** [key in task] *)
Definition contains_key (task : nat) (key : string) : M E bool := λ w,
  (w, inr (bool_decide (key ∈ dom (task_dict w task)))).

(** a dictionary display [{...}] bound to a name: a new object *)
Definition new_task (d : gmap string pyval) : M E nat := λ w,
  let task := fresh (dom (aw_tasks w)) in
  (AgentWorld (<[task := d]> (aw_tasks w)) (aw_tools w) (aw_trajectory w) (aw_env w),
   inr task).

Definition get_tools : M E tools_instance := λ w, (w, inr (aw_tools w)).

Definition set_tools (t : tools_instance) : M E unit := λ w,
  (AgentWorld (aw_tasks w) t (aw_trajectory w) (aw_env w), inr tt).

Definition read_env {A : Type} (f : E → A) : M E A := λ w, (w, inr (f (aw_env w))).

Definition modify_env (f : E → E) : M E unit := λ w,
  (AgentWorld (aw_tasks w) (aw_tools w) (aw_trajectory w) (f (aw_env w)), inr tt).

Definition get_trajectory_steps : M E (list (gmap string pyval)) := λ w,
  (w, inr (aw_trajectory w)).

Definition set_trajectory_steps (steps : list (gmap string pyval)) : M E unit := λ w,
  (AgentWorld (aw_tasks w) (aw_tools w) steps (aw_env w), inr tt).

(** ** [_handle_trajectory_step] and [get_trajectory] *)

(** [now] is what [time.time()] gives at the call.  The f-string handed to
    [logger.debug] is evaluated whatever the log level. *)
Definition _handle_trajectory_step (now : pyval) (step : gmap string pyval) : M E unit :=
  let step := <["timestamp" := now]> step in
  steps ← get_trajectory_steps;
  set_trajectory_steps (steps ++ [step]);;
  match step !! "type", step !! "step" with
  | None, _ => raise (key_error "type" 157)
  | Some _, None => raise (key_error "step" 157)
  | Some _, Some _ => mret tt
  end.

Definition get_trajectory (w : agent_world E) : list (gmap string pyval) :=
  aw_trajectory w.

(** ** [_execute_task_with_codeact] *)

(** [result and isinstance(result, dict) and "success" in result and result["success"]] *)
Definition reports_success (result : agent_result) : bool :=
  match result with
  | RDict d =>
      negb (bool_decide (d = ∅))
      && match d !! "success" with
         | Some v => truthy v
         | None => false
         end
  | RValue _ => false
  end.

(** [result.get("reason", default)], on a dictionary *)
Definition get_reason (result : agent_result) (default_reason : pyval) : pyval :=
  match result with
  | RDict d => default default_reason (d !! "reason")
  | RValue _ => default_reason
  end.

Definition _execute_task_with_codeact (task : nat) : M E (bool * pyval) :=
  task_description ← getitem task "description" 304;
  setitem task "status" STATUS_ATTEMPTING;;
  try_except
    (set_tools {| finished := PBool false; success := PNone; reason := PNone |};;
     result ← codeact_run task_description;
     tools ← get_tools;
     if truthy (finished tools) then
       if truthy (success tools) then
         setitem task "status" STATUS_COMPLETED;;
         mret (true, py_or (reason tools) (PStr "Task completed successfully"))
       else
         setitem task "status" STATUS_FAILED;;
         setitem task "failure_reason"
           (py_or (reason tools) (PStr "Task failed without specific reason"));;
         mret (false, py_or (reason tools) (PStr "Task failed without specific reason"))
     else if reports_success result then
       setitem task "status" STATUS_COMPLETED;;
       mret (true, get_reason result (PStr "Task completed successfully"))
     else
       let failure_reason :=
         match result with
         | RDict _ => get_reason result (PStr "Unknown failure")
         | RValue _ => PStr "Task execution failed"
         end in
       setitem task "status" STATUS_FAILED;;
       setitem task "failure_reason" failure_reason;;
       mret (false, failure_reason))
    (λ e,
       setitem task "status" STATUS_FAILED;;
       setitem task "failure_reason" (PStr ("Error: " +:+ exn_str e));;
       mret (false, PStr ("Error: " +:+ exn_str e))).

(** The world in which the CodeAct agent is started: the task is marked as
    being attempted and the flags of the tools object are reset. *)
Definition started (task : nat) (w : agent_world E) : agent_world E :=
  (set_tools {| finished := PBool false; success := PNone; reason := PNone |}
     (setitem task "status" STATUS_ATTEMPTING w).1).1.

(** The world after [task["status"] = status]. *)
Definition marked (task : nat) (status : pyval) (w : agent_world E) : agent_world E :=
  (setitem task "status" status w).1.

(** The world after the two assignments of a failure. *)
Definition failed (task : nat) (why : pyval) (w : agent_world E) : agent_world E :=
  (setitem task "failure_reason" why (setitem task "status" STATUS_FAILED w).1).1.

(** ** [run] *)

Record DroidAgent := {
  goal : string;
  max_steps : Z;
  max_retries : Z;
  reasoning : bool
}.

(** The value under ["task_history"]: the list [[task]] of the direct mode,
    or what the task manager gives. *)
Inductive history :=
| HistoryTasks (tasks : list nat)
| HistoryValue (v : pyval).

(** The dictionary [run] returns; [None] for a key that is not there. *)
Record run_result := {
  r_success : bool;
  r_reason : pyval;
  r_steps : option Z;
  r_task_history : option history;
  r_trajectory : list (gmap string pyval)
}.

(** [tasks.index(task)]: the first element that is [task] or equals it. *)
Fixpoint index_of (w : agent_world E) (task : nat) (tasks : list nat) : option nat :=
  match tasks with
  | [] => None
  | t :: rest =>
      if bool_decide (t = task) || dict_eq (task_dict w t) (task_dict w task) then Some 0
      else S <$> index_of w task rest
  end.

Definition tasks_index (tasks : list nat) (task : nat) : M E nat := λ w,
  match index_of w task tasks with
  | Some i => (w, inr i)
  | None => (w, inl (Exn ValueError "list.index(x): x not in list" 423))
  end.

(** How the [for task in tasks] loop ends. *)
Inductive for_exit :=
| ForDone
| ForBreak
| ForReturn (r : run_result).

(** The [for] loop of [run], over the tasks [todo] still to visit; it gives
    back [retry_counter]. *)
Fixpoint run_tasks (self : DroidAgent) (tasks : list nat) (step_counter : Z)
    (todo : list nat) (retry_counter : Z) : M E (for_exit * Z) :=
  match todo with
  | [] => mret (ForDone, retry_counter)
  | task :: rest =>
      status ← getitem task "status" 415;
      if py_eq status STATUS_PENDING then
        modify_env (set_steps_counter (PInt 0));;
        outcome ← _execute_task_with_codeact task;
        let '(succeeded, why) := outcome in
        task_idx ← tasks_index tasks task;
        codeact_steps ← read_env steps_counter;
        let result_info : gmap string pyval :=
          {[ "execution_details" := why;
             "step_executed" := PInt step_counter;
             "codeact_steps" := codeact_steps ]} in
        (if succeeded then update_status task_idx STATUS_COMPLETED result_info
         else mret tt);;
        if negb succeeded then
          recorded ← contains_key task "failure_reason";
          (if negb recorded then
             update_status task_idx STATUS_FAILED
               (result_info ∪ {[ "failure_reason" := why ]})
           else mret tt);;
          if (retry_counter <? max_retries self)%Z then
            mret (ForBreak, (retry_counter + 1)%Z)
          else
            let final_message :=
              "Failed after " +:+ pretty (max_retries self) +:+ " retries. Reason: "
              +:+ py_str why in
            trajectory ← get_trajectory_steps;
            mret (ForReturn {| r_success := false; r_reason := PStr final_message;
                               r_steps := None; r_task_history := None;
                               r_trajectory := trajectory |},
                  retry_counter)
        else run_tasks self tasks step_counter rest retry_counter
      else run_tasks self tasks step_counter rest retry_counter
  end.

(** [all(task["status"] == STATUS_COMPLETED for task in tasks)] *)
Fixpoint all_completed (tasks : list nat) : M E bool :=
  match tasks with
  | [] => mret true
  | task :: rest =>
      status ← getitem task "status" 467;
      if py_eq status STATUS_COMPLETED then all_completed rest else mret false
  end.

(** How the [while] loop ends: it is left (the test fails, or [break]) with
    the loop's variables, or [run] returns from inside it. *)
Inductive while_exit :=
| WhileLeft (step_counter : Z) (overall_success : bool) (final_message : pyval)
| WhileReturn (r : run_result).

(** The [while step_counter < self.max_steps] loop.  [step_counter] starts at
    0 and grows by one per iteration, so the test holds as long as
    [remaining], which is [max_steps - step_counter], is not 0. *)
Fixpoint planning_loop (self : DroidAgent) (remaining : nat) (step_counter : Z)
    (retry_counter : Z) : M E while_exit :=
  match remaining with
  | O => mret (WhileLeft step_counter false (PStr ""))
  | S remaining' =>
      let step_counter := (step_counter + 1)%Z in
      tasks ← get_plan;
      completed ← read_env task_completed;
      if truthy completed then
        final_message ← read_env message;
        mret (WhileLeft step_counter true final_message)
      else
        match tasks with
        | [] => mret (WhileLeft step_counter false (PStr "Planner did not generate any tasks"))
        | _ :: _ =>
            exit ← run_tasks self tasks step_counter tasks retry_counter;
            match exit.1 with
            | ForReturn r => mret (WhileReturn r)
            | ForDone | ForBreak =>
                let retry_counter := 0%Z in
                _ ← all_completed tasks;
                planning_loop self remaining' step_counter retry_counter
            end
        end
  end.

Definition run (self : DroidAgent) : M E run_result :=
  set_trajectory_steps [];;
  try_except
    (if negb (reasoning self) then
       task ← new_task {[ "description" := PStr (goal self); "status" := STATUS_PENDING ]};
       outcome ← _execute_task_with_codeact task;
       trajectory ← get_trajectory_steps;
       mret {| r_success := outcome.1; r_reason := outcome.2; r_steps := Some 1%Z;
               r_task_history := Some (HistoryTasks [task]); r_trajectory := trajectory |}
     else
       exit ← planning_loop self (Z.to_nat (max_steps self)) 0 0;
       match exit with
       | WhileReturn r => mret r
       | WhileLeft step_counter overall_success final_message =>
           let reached := (max_steps self <=? step_counter)%Z && negb overall_success in
           let final_message :=
             if reached then
               PStr ("Reached maximum number of steps (" +:+ pretty (max_steps self) +:+ ")")
             else final_message in
           let overall_success := if reached then false else overall_success in
           task_history ← get_task_history;
           trajectory ← get_trajectory_steps;
           mret {| r_success := overall_success; r_reason := final_message;
                   r_steps := Some step_counter;
                   r_task_history := Some (HistoryValue task_history);
                   r_trajectory := trajectory |}
       end)
    (λ e,
       task_history ← get_task_history;
       trajectory ← get_trajectory_steps;
       mret {| r_success := false; r_reason := PStr (exn_str e); r_steps := None;
               r_task_history := Some (HistoryValue task_history);
               r_trajectory := trajectory |}).

(** ** The planner's user message, in [_get_plan_from_planner]

    The part of [_get_plan_from_planner] that builds the content of the user
    message from the planner's prompt, the completed and failed tasks of the
    task manager and the memory of the tools object ([None] when the tools
    object has no memory attribute).  The LLM call and what follows it are
    behind [get_plan]. *)

(** [for idx, item in enumerate(memory, 1): remembered_info += f"{idx}. {item}\n"] *)
Fixpoint add_remembered (remembered_info : string) (idx : nat) (memory : list pyval) : string :=
  match memory with
  | [] => remembered_info
  | item :: rest =>
      add_remembered (remembered_info +:+ pretty idx +:+ ". " +:+ py_str item +:+ nl)
        (S idx) rest
  end.

(** [for task in completed_tasks: task_history += f"- {task['description']}\n"] *)
Fixpoint add_completed (task_history : string) (tasks : list (gmap string pyval))
  : exn + string :=
  match tasks with
  | [] => inr task_history
  | task :: rest =>
      match task !! "description" with
      | None => inl (key_error "description" 200)
      | Some description =>
          add_completed (task_history +:+ "- " +:+ py_str description +:+ nl) rest
      end
  end.

(** the line of one failed task *)
Definition failed_line (description failure_reason : pyval) : string :=
  "- " +:+ py_str description +:+ " (Failed: " +:+ py_str failure_reason +:+ ")" +:+ nl.

Fixpoint add_failed (task_history : string) (tasks : list (gmap string pyval))
  : exn + string :=
  match tasks with
  | [] => inr task_history
  | task :: rest =>
      let failure_reason := default (PStr "Unknown reason") (task !! "failure_reason") in
      match task !! "description" with
      | None => inl (key_error "description" 206)
      | Some description =>
          add_failed (task_history +:+ failed_line description failure_reason) rest
      end
  end.

Definition planner_user_content (user_prompt : string)
    (completed_tasks failed_tasks : list (gmap string pyval)) (memory : option (list pyval))
  : exn + string :=
  let remembered_info :=
    match memory with
    | Some (item :: rest) =>
        add_remembered (nl +:+ "### Remembered Information:" +:+ nl) 1 (item :: rest)
    | Some [] | None => ""
    end in
  let non_empty (tasks : list (gmap string pyval)) :=
    match tasks with [] => false | _ :: _ => true end in
  if non_empty completed_tasks || non_empty failed_tasks
     || negb (bool_decide (remembered_info = "")) then
    let task_history := "### Task Execution History:" +:+ nl in
    match (if non_empty completed_tasks then
             add_completed (task_history +:+ "✅ Completed Tasks:" +:+ nl) completed_tasks
           else inr task_history) with
    | inl e => inl e
    | inr task_history =>
        match (if non_empty failed_tasks then
                 add_failed (task_history +:+ nl +:+ "❌ Failed Tasks:" +:+ nl) failed_tasks
               else inr task_history) with
        | inl e => inl e
        | inr task_history =>
            let task_history :=
              if negb (bool_decide (remembered_info = "")) then
                task_history +:+ remembered_info
              else task_history in
            let task_history :=
              task_history +:+ nl +:+ "⚠️ Please use the above information in your planning. For example, if specific dates or locations were found, include them explicitly in your next tasks instead of just referring to 'the dates' or 'the location'." +:+ nl in
            inr (user_prompt +:+ nl +:+ nl +:+ task_history +:+ nl +:+ nl +:+ "Please consider the above task history and discovered information when creating your next plan. Incorporate specific data (dates, locations, etc.) directly into tasks rather than referring to them generally. Remember that previously completed or failed tasks will not be repeated.")
        end
    end
  else inr user_prompt.

End agent.

(** ** Concrete collaborators, for closed examples

    The state of these collaborators counts the plans made.  The CodeAct
    agent completes the task "open settings" through the tools object, raises
    on the task "crash" and gives up on any other task; the planner always
    plans task 0 and declares the goal reached at its third plan. *)

Definition make_collaborators (history : M nat pyval) : Collaborators nat := {|
  STATUS_PENDING := PStr "pending";
  STATUS_ATTEMPTING := PStr "attempting";
  STATUS_COMPLETED := PStr "completed";
  STATUS_FAILED := PStr "failed";
  obj_str := λ _, "<object>";
  codeact_run := λ description w,
    if py_eq description (PStr "open settings") then
      (AgentWorld (aw_tasks w)
         {| finished := PBool true; success := PBool true; reason := PStr "done" |}
         (aw_trajectory w) (aw_env w),
       inr (RValue PNone))
    else if py_eq description (PStr "crash") then
      (w, inl (Exn (ExnClass "RuntimeError" true) "device offline" 1))
    else (w, inr (RDict {[ "success" := PBool false ]}));
  set_steps_counter := λ _ env, env;
  steps_counter := λ _, PInt 0;
  get_plan := λ w,
    (AgentWorld (aw_tasks w) (aw_tools w) (aw_trajectory w) (S (aw_env w)), inr [0]);
  task_completed := λ env, PBool (bool_decide (3 ≤ env));
  message := λ _, PStr "goal reached";
  update_status := λ _ _ _ w, (w, inr tt);
  get_task_history := history
|}.

Definition sample_collaborators : Collaborators nat :=
  make_collaborators (λ w, (w, inr (PObj 0 true))).


Definition idle_tools : tools_instance :=
  {| finished := PBool true; success := PBool false; reason := PStr "left over" |}.

(** A world with the one pending task [description], at reference 0. *)
Definition sample_agent_world (description : string) : agent_world nat :=
  AgentWorld {[ 0 := {[ "description" := PStr description; "status" := PStr "pending" ]} ]}
    idle_tools [] 0.

Definition sample_agent (reasoning0 : bool) (max_steps0 max_retries0 : Z) : DroidAgent :=
  {| goal := "open settings"; max_steps := max_steps0; max_retries := max_retries0;
     reasoning := reasoning0 |}.

(** * Properties *)

(** ** Strings *)

Lemma append_assoc (a b c : string) : (a +:+ b) +:+ c = a +:+ (b +:+ c).
Proof.
  induction a as [|ch a IH]; [done |].
  change (String ch ((a +:+ b) +:+ c) = String ch (a +:+ (b +:+ c))).
  by rewrite IH.
Qed.

Lemma contains_mid (a b c : string) : contains b (a +:+ b +:+ c).
Proof. by exists a, c. Qed.

Lemma contains_append_r (n a b : string) : contains n a → contains n (a +:+ b).
Proof.
  intros (pre & post & ->). exists pre, (post +:+ b).
  by rewrite !append_assoc.
Qed.

Lemma contains_append_l (n a b : string) : contains n b → contains n (a +:+ b).
Proof.
  intros (pre & post & ->). exists (a +:+ pre), post.
  by rewrite !append_assoc.
Qed.


(** ** The runner *)

Lemma _execute_in_thread_run {rt : PyRuntime} (w : world) (self : SimpleCodeExecutor)
    (code0 : code) (ui : value) (ctx : option nat) :
  _execute_in_thread w self code0 ui ctx =
    let rs := (run_code w self code0 ui).1 in
    (World (rs_heap rs) (match ctx with Some _ => None | None => _exec_context w end),
     rs_clock rs,
     match (run_code w self code0 ui).2 with
     | None => inr (if decide (rs_stderr rs = "") then rs_stdout rs
                    else rs_stdout rs +:+ nl +:+ rs_stderr rs)
     | Some (Plain e) =>
         if cls_is_Exception (exn_class_of e) then inr (error_text e) else inl (Plain e)
     | Some (Unprintable c line inner) =>
         if cls_is_Exception c then inl inner else inl (Unprintable c line inner)
     end).
Proof.
  unfold _execute_in_thread, run_code, error_text.
  destruct (exec _ _ _ _) as [rs raised].
  cbv beta iota zeta delta [fst snd].
  destruct ctx, raised as [[e | c line inner]|]; try done;
    destruct (cls_is_Exception _); try done.
  all: by rewrite !append_assoc.
Qed.

(** [execute] in terms of the worker. *)
Lemma execute_run {rt : PyRuntime} (w : world) (self : SimpleCodeExecutor)
    (state : ExecuterState) (code0 : code) (timeout : N) (ctx : nat) :
  execute w self state code0 timeout ctx =
    let worker := _execute_in_thread w self code0 (ui_state state) (Some ctx) in
    if (rs_clock (run_code w self code0 (ui_state state)).1 <? timeout)%N then
      (worker.1.1,
       match worker.2 with
       | inr output => inr output
       | inl e =>
           if decide (raised_class e = TimeoutError) then
             inr ("Error: Execution timed out after " +:+ format_number timeout +:+ " seconds")
           else inl e
       end)
    else
      (worker_at w self code0 (ui_state state) ctx timeout,
       inr ("Error: Execution timed out after " +:+ format_number timeout +:+ " seconds")).
Proof.
  unfold execute. rewrite _execute_in_thread_run.
  cbv beta iota zeta delta [fst snd].
  destruct (_ <? timeout)%N; [| done].
  destruct (match _ with Some _ => _ | None => _ end) as [e | output]; [| done].
  by destruct (decide _).
Qed.

(** [execute] when the worker ends within the timeout. *)
Lemma execute_in_time {rt : PyRuntime} (w : world) (self : SimpleCodeExecutor)
    (state : ExecuterState) (code0 : code) (timeout : N) (ctx : nat) :
  (rs_clock (run_code w self code0 (ui_state state)).1 < timeout)%N →
  execute w self state code0 timeout ctx =
    let rs := (run_code w self code0 (ui_state state)).1 in
    (World (rs_heap rs) None,
     match (run_code w self code0 (ui_state state)).2 with
     | None => inr (if decide (rs_stderr rs = "") then rs_stdout rs
                    else rs_stdout rs +:+ nl +:+ rs_stderr rs)
     | Some (Plain e) =>
         if cls_is_Exception (exn_class_of e) then inr (error_text e) else inl (Plain e)
     | Some (Unprintable c line inner) =>
         if cls_is_Exception c then
           if decide (raised_class inner = TimeoutError) then
             inr ("Error: Execution timed out after " +:+ format_number timeout +:+ " seconds")
           else inl inner
         else inl (Unprintable c line inner)
     end).
Proof.
  intros Hlt. rewrite execute_run. cbv zeta.
  apply N.ltb_lt in Hlt as ->. rewrite _execute_in_thread_run.
  cbv beta iota zeta delta [fst snd].
  destruct (run_code w self code0 (ui_state state)) as [rs raised].
  cbv beta iota delta [fst snd].
  destruct raised as [[e | c line inner]|]; [| | done].
  - destruct e as [[name is_exc] msg line]; simpl.
    destruct is_exc; [done |]. by destruct (decide _).
  - destruct c as [name is_exc]; simpl.
    destruct is_exc; [done |]. by destruct (decide _).
Qed.

(** [execute] when the worker misses the deadline. *)
Lemma execute_late {rt : PyRuntime} (w : world) (self : SimpleCodeExecutor)
    (state : ExecuterState) (code0 : code) (timeout : N) (ctx : nat) :
  (timeout ≤ rs_clock (run_code w self code0 (ui_state state)).1)%N →
  execute w self state code0 timeout ctx
  = (worker_at w self code0 (ui_state state) ctx timeout,
     inr ("Error: Execution timed out after " +:+ format_number timeout +:+ " seconds")).
Proof. intros Hle. rewrite execute_run. cbv zeta. by apply N.ltb_ge in Hle as ->. Qed.

(** C5.  A run that completes without a fault returns the captured stdout
    when the captured stderr is empty, and stdout, one newline, then stderr
    when it is not; so does [execute] when the run ends within the timeout.
    Code that writes "out" to stdout and "err" to stderr returns "out", a
    newline, "err". *)
Theorem execute_success_output {rt : PyRuntime} (w : world) (self : SimpleCodeExecutor)
    (state : ExecuterState) (code0 : code) (timeout : N) (ctx : nat) (rs : run_state) :
  run_code w self code0 (ui_state state) = (rs, None) →
  (rs_clock rs < timeout)%N →
  let runner := (_execute_in_thread w self code0 (ui_state state) (Some ctx)).2 in
  let result := (execute w self state code0 timeout ctx).2 in
  (rs_stderr rs = "" → runner = inr (rs_stdout rs) ∧ result = inr (rs_stdout rs))
  ∧ (rs_stderr rs ≠ "" →
     runner = inr (rs_stdout rs +:+ nl +:+ rs_stderr rs)
     ∧ result = inr (rs_stdout rs +:+ nl +:+ rs_stderr rs))
  ∧ (execute w self state
       (Program [SWriteOut (ELit (VStr "out")); SWriteErr (ELit (VStr "err"))])
       timeout ctx).2 = inr ("out" +:+ nl +:+ "err").
Proof.
  intros Hrun Hlt runner result. unfold runner, result.
  assert (0 < timeout)%N as Hpos by lia.
  rewrite execute_in_time by (by rewrite Hrun).
  rewrite _execute_in_thread_run, Hrun.
  cbv beta iota zeta delta [fst snd].
  split; [| split].
  - intros ->. done.
  - intros Hne. by destruct (decide _).
  - by rewrite execute_in_time.
Qed.

Lemma execute_success_output_witness :
  let prog := Program [SWriteOut (ELit (VStr "a")); SSleep 2; SWriteOut (ELit (VStr "b"))] in
  let run := run_code (rt := sample_runtime) sample_world sample_executor prog VNone in
  run.2 = None ∧ (rs_clock run.1 < 50)%N ∧ rs_stderr run.1 = ""
  ∧ (execute (rt := sample_runtime) sample_world sample_executor no_state prog 50 7).2
    = inr "ab".
Proof.
  split; [reflexivity | split; [reflexivity | split; [reflexivity |]]].
  pose proof (execute_success_output (rt := sample_runtime) sample_world sample_executor
    no_state (Program [SWriteOut (ELit (VStr "a")); SSleep 2; SWriteOut (ELit (VStr "b"))])
    50 7 _ eq_refl eq_refl) as (Hout & _ & _).
  exact (proj2 (Hout eq_refl)).
Defined.

(** C9.  When the executed code raises an exception that the runner catches,
    after having written to stdout, the result is the formatted error text
    alone (type name, message, traceback): it is built from the exception and
    does not depend on what the streams captured. *)
Theorem fault_discards_stdout {rt : PyRuntime} (w : world) (self : SimpleCodeExecutor)
    (code0 : code) (ui : value) (ctx : option nat) (rs : run_state) (e : exn) :
  run_code w self code0 ui = (rs, Some (Plain e)) →
  cls_is_Exception (exn_class_of e) = true →
  (_execute_in_thread w self code0 ui ctx).2
  = inr ("Error: " +:+ cls_name (exn_class_of e) +:+ ": " +:+ exn_str e +:+ nl
         +:+ format_exc e)
  ∧ ∀ w' self' code' ui' ctx' rs',
      run_code w' self' code' ui' = (rs', Some (Plain e)) →
      (_execute_in_thread w' self' code' ui' ctx').2
      = (_execute_in_thread w self code0 ui ctx).2.
Proof.
  intros Hrun Hexc. split.
  - by rewrite _execute_in_thread_run, Hrun; simpl; rewrite Hexc.
  - intros w' self' code' ui' ctx' rs' Hrun'.
    by rewrite !_execute_in_thread_run, Hrun, Hrun'.
Qed.

Lemma fault_discards_stdout_witness :
  let prog := Program [SWriteOut (ELit (VStr "hello")); SRaise ValueError "boom"] in
  let boom := Exn ValueError "boom" 2 in
  let run := run_code (rt := sample_runtime) sample_world sample_executor prog VNone in
  rs_stdout run.1 = "hello" ∧ run.2 = Some (Plain boom)
  ∧ (_execute_in_thread (rt := sample_runtime) sample_world sample_executor prog VNone (Some 7)).2
    = inr ("Error: ValueError: boom" +:+ nl +:+ format_exc (PyRuntime := sample_runtime) boom).
Proof.
  split; [reflexivity | split; [reflexivity |]].
  exact (proj1 (fault_discards_stdout (rt := sample_runtime) sample_world sample_executor
    (Program [SWriteOut (ELit (VStr "hello")); SRaise ValueError "boom"]) VNone (Some 7)
    _ (Exn ValueError "boom" 2) eq_refl eq_refl)).
Defined.




(** It fails for an instance of Exception too: when the code raises an
    instance of a subclass of Exception whose [__str__] raises RuntimeError,
    [execute] raises that RuntimeError to its caller. *)
Lemma execute_propagates_str_fault :
  let RuntimeError := ExnClass "RuntimeError" true in
  let prog := Program [SRaiseUnprintable (ExnClass "Weird" true) RuntimeError "no text"] in
  let run := run_code (rt := sample_runtime) sample_world sample_executor prog VNone in
  run.2 = Some (Unprintable (ExnClass "Weird" true) 1 (Plain (Exn RuntimeError "no text" 1)))
  ∧ (rs_clock run.1 < 50)%N
  ∧ (execute (rt := sample_runtime) sample_world sample_executor no_state prog 50 7).2
    = inl (Plain (Exn RuntimeError "no text" 1)).
Proof. by vm_compute. Qed.

(** C2.  When the worker has not completed by the deadline, [execute] does
    not raise: it returns the string that reports the timeout, which contains
    the timeout value passed in. *)
Theorem execute_timeout {rt : PyRuntime} (w : world) (self : SimpleCodeExecutor)
    (state : ExecuterState) (code0 : code) (timeout : N) (ctx : nat) :
  (timeout ≤ rs_clock (run_code w self code0 (ui_state state)).1)%N →
  (execute w self state code0 timeout ctx).2
  = inr ("Error: Execution timed out after " +:+ format_number timeout +:+ " seconds")
  ∧ contains (format_number timeout)
      ("Error: Execution timed out after " +:+ format_number timeout +:+ " seconds").
Proof.
  intros Hle. rewrite execute_late by done. split; [done | apply contains_mid].
Qed.

Lemma execute_timeout_witness :
  let prog := Program [SSleep 60; SRaise SystemExit "0"] in
  (50 ≤ rs_clock (run_code (rt := sample_runtime) sample_world sample_executor prog VNone).1)%N
  ∧ (execute (rt := sample_runtime) sample_world sample_executor no_state prog 50 7).2
    = inr "Error: Execution timed out after 50.0 seconds".
Proof.
  split; [by vm_compute |].
  refine (proj1 (execute_timeout (rt := sample_runtime) sample_world sample_executor no_state
    (Program [SSleep 60; SRaise SystemExit "0"]) 50 7 _)).
  by vm_compute.
Defined.

(** C8.  Whatever the code does (normal completion, an exception that is
    caught, an exception that escapes, from the code or from the handler),
    the slot [_exec_context], set from the context handed to the runner, is
    None again when [_execute_in_thread] returns or raises. *)
Theorem exec_context_cleared {rt : PyRuntime} (w : world) (self : SimpleCodeExecutor)
    (code0 : code) (ui : value) (ctx : nat) :
  _exec_context (_execute_in_thread w self code0 ui (Some ctx)).1.1 = None.
Proof. by rewrite _execute_in_thread_run. Qed.

(** Called without a context, the runner neither sets nor clears the slot. *)
Lemma exec_context_untouched {rt : PyRuntime} (w : world) (self : SimpleCodeExecutor)
    (code0 : code) (ui : value) :
  _exec_context (_execute_in_thread w self code0 ui None).1.1 = _exec_context w.
Proof. by rewrite _execute_in_thread_run. Qed.

(** ** The heap *)

Lemma deref_insert_eq (h : gmap nat (gmap string value)) (l : nat) (d : gmap string value) :
  deref (<[l := d]> h) l = d.
Proof. unfold deref. by rewrite lookup_insert_eq. Qed.

Lemma deref_insert_ne (h : gmap nat (gmap string value)) (l l' : nat) (d : gmap string value) :
  l ≠ l' → deref (<[l := d]> h) l' = deref h l'.
Proof. intros Hne. unfold deref. by rewrite lookup_insert_ne. Qed.

Lemma deref_unallocated (h : gmap nat (gmap string value)) (l : nat) :
  l ∉ dom h → deref h l = ∅.
Proof. intros Hl. unfold deref. by rewrite (not_elem_of_dom_1 h l Hl). Qed.

Lemma fresh_unallocated (h : gmap nat (gmap string value)) : fresh (dom h) ∉ dom h.
Proof. apply is_fresh. Qed.

(** A new empty dictionary changes what no reference denotes. *)
Lemma deref_alloc_empty (h : gmap nat (gmap string value)) (l : nat) :
  deref (alloc h ∅).2 l = deref h l.
Proof.
  unfold alloc; simpl. destruct (decide (fresh (dom h) = l)) as [<- | Hne].
  - rewrite deref_insert_eq. symmetry. apply deref_unallocated, fresh_unallocated.
  - by apply deref_insert_ne.
Qed.

Lemma arg_dict (h h' : gmap nat (gmap string value)) (arg : option nat) (l : nat) :
  match arg with Some l0 => (l0, h) | None => alloc h ∅ end = (l, h') →
  (∀ l', deref h' l' = deref h l')
  ∧ deref h l = initial_dict h arg
  ∧ (∀ l0, arg = Some l0 → l = l0).
Proof.
  destruct arg as [l0|]; intros Heq.
  - injection Heq as <- <-. split; [done | split; [done | by intros ? [= ->]]].
  - assert (h' = (alloc h ∅).2) as -> by by rewrite Heq.
    assert (l = fresh (dom h)) as -> by (unfold alloc in Heq; by injection Heq).
    split; [apply deref_alloc_empty | split; [| done]].
    apply deref_unallocated, fresh_unallocated.
Qed.

Lemma deref_store_eq (h : gmap nat (gmap string value)) (l : nat) (k : string) (v : value) :
  deref (store h l k v) l = <[k := v]> (deref h l).
Proof. apply deref_insert_eq. Qed.

Lemma deref_store_ne (h : gmap nat (gmap string value)) (l l' : nat) (k : string) (v : value) :
  l ≠ l' → deref (store h l k v) l' = deref h l'.
Proof. apply deref_insert_ne. Qed.

Lemma store_allocated (h : gmap nat (gmap string value)) (l l' : nat) (k : string) (v : value) :
  l' ∈ dom (store h l k v) ↔ l' = l ∨ l' ∈ dom h.
Proof. unfold store. rewrite dom_insert_L. set_solver. Qed.

Lemma deref_update (h : gmap nat (gmap string value)) (gl : nat) (d : gmap string value) :
  deref (update h gl d) gl = d ∪ deref h gl
  ∧ (∀ l, l ≠ gl → deref (update h gl d) l = deref h l)
  ∧ gl ∈ dom (update h gl d).
Proof.
  unfold update. split; [apply deref_insert_eq | split].
  - intros l Hne. by apply deref_insert_ne.
  - rewrite dom_insert_L. by apply elem_of_union_l, elem_of_singleton.
Qed.

(** ** Construction *)

Lemma add_tools_ok (ts : list value) (h h' : gmap nat (gmap string value)) (gl : nat) :
  add_tools h gl ts = (h', None) →
  deref h' gl = list_bindings ts ∪ deref h gl
  ∧ (∀ l, l ≠ gl → deref h' l = deref h l)
  ∧ (gl ∈ dom h → gl ∈ dom h')
  ∧ Forall (λ tool, is_Some (get_name tool)) ts.
Proof.
  revert h. induction ts as [|tool ts IH]; intros h; simpl.
  - intros [= <-]. by rewrite (left_id_L ∅ (∪)).
  - destruct (get_name tool) as [name|] eqn:Hname; [| done].
    intros Hrest. apply IH in Hrest as (Hgl & Hother & Hdom & Hall).
    split; [| split; [| split]].
    + rewrite Hgl, deref_store_eq, insert_union_singleton_l.
      by rewrite (assoc_L (∪)).
    + intros l Hl. rewrite (Hother l Hl). by apply deref_store_ne.
    + intros Hin. apply Hdom, store_allocated. by left.
    + constructor; [by rewrite Hname | done].
Qed.

Lemma add_tools_nameless (ts : list value) (h : gmap nat (gmap string value)) (gl : nat) :
  ¬ Forall (λ tool, is_Some (get_name tool)) ts →
  ∃ e, (add_tools h gl ts).2 = Some e ∧ exn_class_of e = AttributeError.
Proof.
  revert h. induction ts as [|tool ts IH]; intros h Hnot; simpl.
  - by destruct Hnot.
  - destruct (get_name tool) as [name|] eqn:Hname; [| by eexists].
    apply IH. intros Hall. apply Hnot. constructor; [by rewrite Hname | done].
Qed.

Lemma add_tools_named (ts : list value) (h : gmap nat (gmap string value)) (gl : nat) :
  Forall (λ tool, is_Some (get_name tool)) ts → (add_tools h gl ts).2 = None.
Proof.
  intros Hall. revert h. induction Hall as [|tool ts [name Hname] _ IH]; intros h; simpl.
  - done.
  - rewrite Hname. apply IH.
Qed.

Lemma init_builtins_store {rt : PyRuntime} (h : gmap nat (gmap string value)) (gl : nat)
    (sm : bool) (am bm ab bb : option (gset string)) :
  (if sm then
     store h gl "__builtins__"
       (VBuiltinsDict (<["__import__" := create_safe_import am bm]> (create_safe_builtins ab bb)))
   else store h gl "__builtins__" VBuiltinsModule)
  = store h gl "__builtins__" (installed_builtins sm am bm ab bb).
Proof. by destruct sm. Qed.

(** What a successful [__init__] leaves: [h3] is the heap once the tools are
    in the globals dictionary [gl]; [ll] is the locals dictionary. *)
Lemma init_inv {rt : PyRuntime} (h : gmap nat (gmap string value)) (locals0 globals0 : option nat)
    (tools : option tools_arg) (uss sm : bool) (am bm ab bb : option (gset string))
    (h' : gmap nat (gmap string value)) (self : SimpleCodeExecutor) :
  __init__ h locals0 globals0 tools uss sm am bm ab bb = (h', inr self) →
  ∃ (ll gl : nat) (h3 : gmap nat (gmap string value)),
    (∀ l, locals0 = Some l → ll = l)
    ∧ (∀ l, globals0 = Some l → gl = l)
    ∧ deref h3 gl
      = tool_bindings tools
        ∪ <["__builtins__" := installed_builtins sm am bm ab bb]> (initial_dict h globals0)
    ∧ (ll = gl ∨ deref h3 ll = initial_dict h locals0)
    ∧ gl ∈ dom h3
    ∧ (if uss then
         h' = <[fresh (dom h3) :=
                  deref h3 ll ∪ filter (λ kv, kv.1 ∉ dom (deref h3 ll)) (deref h3 gl)]> h3
         ∧ globals self = fresh (dom h3) ∧ locals self = fresh (dom h3)
       else h' = h3 ∧ globals self = gl ∧ locals self = ll)
    ∧ deref h ll = initial_dict h locals0
    ∧ deref h gl = initial_dict h globals0.
Proof.
  unfold __init__.
  destruct (match locals0 with Some l => (l, h) | None => alloc h ∅ end)
    as [ll h0] eqn:Hl.
  destruct (match globals0 with Some l => (l, h0) | None => alloc h0 ∅ end)
    as [gl h1] eqn:Hg.
  apply arg_dict in Hl as (Hl_same & Hl_init & Hl_arg).
  apply arg_dict in Hg as (Hg_same & Hg_init & Hg_arg).
  rewrite init_builtins_store.
  set (bv := installed_builtins sm am bm ab bb).
  set (h2 := store h1 gl "__builtins__" bv).
  assert (deref h2 gl = <["__builtins__" := bv]> (initial_dict h globals0)) as Hgl2.
  { unfold h2. rewrite deref_store_eq, Hg_same, Hg_init. f_equal.
    destruct globals0 as [g|]; simpl; [apply Hl_same | done]. }
  assert (ll ≠ gl → deref h2 ll = initial_dict h locals0) as Hll2.
  { intros Hne. unfold h2. rewrite deref_store_ne by done.
    by rewrite Hg_same, Hl_same, Hl_init. }
  assert (gl ∈ dom h2) as Hdom2 by (apply store_allocated; by left).
  lazymatch goal with
  | |- _ → ?post =>
      assert (∀ h3 : gmap nat (gmap string value),
                deref h3 gl = tool_bindings tools ∪ deref h2 gl →
                (∀ l, l ≠ gl → deref h3 l = deref h2 l) →
                gl ∈ dom h3 →
                (if uss then
                   let '(l, h4) :=
                     alloc h3 (deref h3 ll
                               ∪ filter (λ kv, kv.1 ∉ dom (deref h3 ll)) (deref h3 gl)) in
                   (h4, @inr exn SimpleCodeExecutor
                          {| safe_mode := sm; globals := l; locals := l;
                             use_same_scope := uss |})
                 else
                   (h3, @inr exn SimpleCodeExecutor
                          {| safe_mode := sm; globals := gl; locals := ll;
                             use_same_scope := uss |}))
                = (h', inr self) →
                post) as Hfinish
  end.
  { intros h3 Hgl3 Hother3 Hdom3 Hret. exists ll, gl, h3.
    split; [done |]. split; [done |].
    split; [by rewrite Hgl3, Hgl2 |].
    split. { destruct (decide (ll = gl)) as [| Hne]; [by left | right].
             by rewrite Hother3, Hll2. }
    split; [done |].
    split; [destruct uss; unfold alloc in Hret; by injection Hret as <- <- |].
    split; [done |].
    rewrite <- Hl_same, Hg_init.
    destruct globals0 as [g|]; simpl; [apply Hl_same | done]. }
  destruct tools as [[d | ts | v] |]; simpl.
  - apply Hfinish; apply deref_update.
  - destruct (add_tools h2 gl ts) as [h3 [e|]] eqn:Hadd; [done |].
    apply add_tools_ok in Hadd as (Hgl3 & Hother3 & Hdom3 & _).
    apply Hfinish; auto.
  - done.
  - apply Hfinish; apply deref_update.
Qed.

(** C7, as amended.  A [tools] argument that is neither a dict nor a list
    makes [__init__] raise ValueError; with [tools] omitted, a dict, or a list
    whose elements all carry [__name__] (functions), construction succeeds;
    a list with an element that has no [__name__] makes [__init__] raise
    AttributeError. *)
Theorem init_outcome {rt : PyRuntime} (h : gmap nat (gmap string value))
    (locals0 globals0 : option nat) (tools : option tools_arg) (uss sm : bool)
    (am bm ab bb : option (gset string)) :
  let result := (__init__ h locals0 globals0 tools uss sm am bm ab bb).2 in
  (∀ v, tools = Some (ToolsOther v) →
     result = inl (Exn ValueError "Tools must be a dictionary or a list of functions." 111))
  ∧ (tools = None ∨ (∃ d, tools = Some (ToolsDict d)) → ∃ self, result = inr self)
  ∧ (∀ ts, tools = Some (ToolsList ts) →
       Forall (λ tool, is_Some (get_name tool)) ts → ∃ self, result = inr self)
  ∧ (∀ ts, tools = Some (ToolsList ts) →
       ¬ Forall (λ tool, is_Some (get_name tool)) ts →
       ∃ e, result = inl e ∧ exn_class_of e = AttributeError).
Proof.
  unfold __init__.
  destruct (match locals0 with Some l => (l, h) | None => alloc h ∅ end) as [ll h0].
  destruct (match globals0 with Some l => (l, h0) | None => alloc h0 ∅ end) as [gl h1].
  rewrite init_builtins_store.
  set (h2 := store h1 gl "__builtins__" _).
  split; [| split; [| split]].
  - by intros v ->.
  - intros [-> | [d ->]]; simpl; destruct uss; by eexists.
  - intros ts -> Hall; simpl.
    pose proof (add_tools_named ts h2 gl Hall) as Hok.
    destruct (add_tools h2 gl ts) as [h3 raised]; simpl in Hok; subst raised.
    destruct uss; by eexists.
  - intros ts -> Hnot; simpl.
    destruct (add_tools_nameless ts h2 gl Hnot) as (e & Hraise & Hcls).
    destruct (add_tools h2 gl ts) as [h3 raised]; simpl in Hraise; subst raised.
    by exists e.
Qed.

Lemma init_outcome_witness :
  (∃ self, (__init__ (rt := sample_runtime) ∅ None None (Some (ToolsList [tap])) true false
              None None None None).2 = inr self)
  ∧ (__init__ (rt := sample_runtime) ∅ None None (Some (ToolsOther (VStr "tap"))) true false
       None None None None).2
    = inl (Exn ValueError "Tools must be a dictionary or a list of functions." 111).
Proof.
  split.
  - refine (proj1 (proj2 (proj2 (init_outcome (rt := sample_runtime) ∅ None None
      (Some (ToolsList [tap])) true false None None None None))) [tap] eq_refl _).
    repeat constructor. by exists "tap".
  - exact (proj1 (init_outcome (rt := sample_runtime) ∅ None None
      (Some (ToolsOther (VStr "tap"))) true false None None None None) (VStr "tap") eq_refl).
Defined.

(** C7, as stated, fails: a list holding a callable without [__name__]
    makes construction raise AttributeError, not ValueError. *)
Lemma init_list_of_callables_raises :
  (__init__ (rt := sample_runtime) ∅ None None (Some (ToolsList [tap; partial_tap])) true false
     None None None None).2
  = inl (Exn AttributeError "'functools.partial' object has no attribute '__name__'" 109).
Proof. by vm_compute. Qed.

(** C10.  When [__init__] returns without raising, the dictionary object the
    caller passed as [globals] holds a ["__builtins__"] entry and, for every
    tool identifier, the tool; this is so in safe and in unsafe mode. *)
Theorem init_mutates_globals {rt : PyRuntime} (h : gmap nat (gmap string value))
    (locals0 : option nat) (g : nat) (tools : option tools_arg) (uss sm : bool)
    (am bm ab bb : option (gset string))
    (h' : gmap nat (gmap string value)) (self : SimpleCodeExecutor) :
  __init__ h locals0 (Some g) tools uss sm am bm ab bb = (h', inr self) →
  "__builtins__" ∈ dom (deref h' g)
  ∧ (∀ k tool, tool_bindings tools !! k = Some tool → deref h' g !! k = Some tool)
  ∧ deref h' g
    = tool_bindings tools ∪ <["__builtins__" := installed_builtins sm am bm ab bb]> (deref h g).
Proof.
  intros Hinit.
  apply init_inv in Hinit as (ll & gl & h3 & _ & Hg & Hgl3 & _ & Hdom3 & Hret & _).
  rewrite (Hg g eq_refl) in *. simpl in Hgl3.
  assert (deref h' g = deref h3 g) as ->.
  { destruct uss; [| by destruct Hret as [-> _]].
    destruct Hret as [-> _]. apply deref_insert_ne.
    intros Heq. apply (fresh_unallocated h3). by rewrite Heq. }
  rewrite Hgl3. split; [| split; [| done]].
  - rewrite dom_union_L, dom_insert_L. apply elem_of_union_r, elem_of_union_l.
    by apply elem_of_singleton.
  - intros k tool Hk. by apply lookup_union_Some_l.
Qed.

Lemma init_mutates_globals_witness :
  let h0 : gmap nat (gmap string value) := <[5 := {["flag" := VInt 1]}]> ∅ in
  let r := __init__ (rt := sample_runtime) h0 None (Some 5) (Some (ToolsList [tap])) true true
             None None (Some ∅) None in
  (∃ self, r.2 = inr self)
  ∧ "__builtins__" ∈ dom (deref r.1 5)
  ∧ deref r.1 5 !! "tap" = Some tap
  ∧ deref r.1 5 !! "flag" = Some (VInt 1).
Proof.
  split; [by eexists |].
  pose proof (init_mutates_globals (rt := sample_runtime) (<[5 := {["flag" := VInt 1]}]> ∅)
    None 5 (Some (ToolsList [tap])) true true None None (Some ∅) None _ _ eq_refl)
    as (Hb & Htool & _).
  split; [exact Hb | split; [exact (Htool "tap" tap eq_refl) | by vm_compute]].
Defined.

(** C4, as amended.  After a successful construction, in safe and in unsafe
    mode, a tool identifier that is not a key of the caller's initial locals
    resolves (locals first, then globals) to its tool: neither the builtins
    mapping nor the caller's initial globals replaces it.  A key of the
    caller's initial locals keeps the caller's value, tool identifier or
    not. *)
Theorem init_tool_bindings {rt : PyRuntime} (h : gmap nat (gmap string value))
    (locals0 globals0 : option nat) (tools : option tools_arg) (uss sm : bool)
    (am bm ab bb : option (gset string))
    (h' : gmap nat (gmap string value)) (self : SimpleCodeExecutor) :
  __init__ h locals0 globals0 tools uss sm am bm ab bb = (h', inr self) →
  (∀ k tool builtins,
     tool_bindings tools !! k = Some tool →
     k ∉ dom (initial_dict h locals0) →
     load_name h' (globals self) (locals self) builtins k = inr tool)
  ∧ (∀ k v builtins,
     initial_dict h locals0 !! k = Some v →
     globals0 ≠ locals0 →
     load_name h' (globals self) (locals self) builtins k = inr v).
Proof.
  intros Hinit.
  apply init_inv in Hinit
    as (ll & gl & h3 & Hl & Hg & Hgl3 & Hll3 & Hdom3 & Hret & Hl0 & Hg0).
  split.
  - intros k tool builtins Htool Hfree.
    assert (deref h3 gl !! k = Some tool) as Hgk
      by (rewrite Hgl3; by apply lookup_union_Some_l).
    assert (deref h3 ll !! k = Some tool
            ∨ deref h3 ll !! k = None) as Hlk.
    { destruct Hll3 as [-> | ->]; [by left | right]. by apply not_elem_of_dom. }
    unfold load_name. destruct uss.
    + destruct Hret as (-> & -> & ->). rewrite deref_insert_eq.
      destruct Hlk as [Hlk | Hlk].
      * by rewrite (lookup_union_Some_l _ _ _ _ Hlk).
      * rewrite lookup_union_r by done.
        rewrite map_lookup_filter_Some_2 with (x := tool); [done | done |].
        simpl. by apply not_elem_of_dom.
    + destruct Hret as (-> & -> & ->).
      destruct Hlk as [-> | ->]; [done | by rewrite Hgk].
  - intros k v builtins Hk Hdistinct.
    assert (deref h3 ll !! k = Some v) as Hlk.
    { destruct Hll3 as [Heq | ->]; [| done].
      destruct locals0 as [l|]; [| done]. simpl in Hk.
      destruct globals0 as [g|].
      - rewrite <- (Hl l eq_refl), <- (Hg g eq_refl) in Hdistinct. by subst.
      - (* a new globals dictionary is not the caller's locals dictionary *)
        simpl in Hg0. rewrite <- (Hl l eq_refl), Heq, Hg0 in Hk. done. }
    unfold load_name. destruct uss.
    + destruct Hret as (-> & -> & ->). rewrite deref_insert_eq.
      by rewrite (lookup_union_Some_l _ _ _ _ Hlk).
    + destruct Hret as (-> & -> & ->). by rewrite Hlk.
Qed.

Lemma init_tool_bindings_witness :
  let h0 : gmap nat (gmap string value) := <[3 := {["tap" := VInt 7]}]> ∅ in
  let r := __init__ (rt := sample_runtime) h0 None (Some 3) (Some (ToolsDict {["tap" := tap]}))
             true true None None None None in
  ∃ self, r.2 = inr self
    ∧ load_name (rt := sample_runtime) r.1 (globals self) (locals self) VBuiltinsModule "tap"
      = inr tap.
Proof.
  eexists. split; [reflexivity |].
  refine (proj1 (init_tool_bindings (rt := sample_runtime) (<[3 := {["tap" := VInt 7]}]> ∅)
    None (Some 3) (Some (ToolsDict {["tap" := tap]})) true true None None None None _ _ eq_refl)
    "tap" tap VBuiltinsModule eq_refl _).
  by vm_compute.
Defined.

(** C4, as stated, fails: a caller's initial local named like a tool takes the
    tool's place, with a shared scope and with separate scopes. *)
Lemma initial_local_replaces_tool :
  let h0 : gmap nat (gmap string value) := <[0 := {["tap" := VInt 7]}]> ∅ in
  let tools := Some (ToolsDict {["tap" := tap]}) in
  let shared := __init__ (rt := sample_runtime) h0 (Some 0) None tools true false
                  None None None None in
  let separate := __init__ (rt := sample_runtime) h0 (Some 0) None tools false false
                    None None None None in
  (∃ self, shared.2 = inr self
     ∧ load_name (rt := sample_runtime) shared.1 (globals self) (locals self)
         VBuiltinsModule "tap" = inr (VInt 7)
     ∧ deref shared.1 (globals self) !! "tap" = Some (VInt 7))
  ∧ (∃ self, separate.2 = inr self
     ∧ load_name (rt := sample_runtime) separate.1 (globals self) (locals self)
         VBuiltinsModule "tap" = inr (VInt 7)).
Proof.
  split; eexists; (split; [reflexivity |]); by vm_compute.
Qed.

(** ** The builtins mappings *)

Lemma full_builtins_lookup {rt : PyRuntime} (name : string) (b : builtin_obj) :
  full_builtins !! name = Some b ↔ name ∈ builtin_names ∧ b = BuiltinFn name.
Proof.
  unfold full_builtins. rewrite lookup_set_to_map.
  - split.
    + intros (y & Hy & [= -> <-]). done.
    + intros [Hin ->]. by exists name.
  - by intros y y' _ _ [=].
Qed.

Lemma safe_builtins_dom {rt : PyRuntime} (allowed blocked : option (gset string)) (name : string) :
  name ∈ dom (create_safe_builtins allowed blocked)
  ↔ name ∈ builtin_names ∧ decision_fn allowed blocked name = true.
Proof.
  unfold create_safe_builtins. rewrite elem_of_dom. split.
  - intros [b Hb]. apply map_lookup_filter_Some in Hb as [Hfull Hdec].
    apply full_builtins_lookup in Hfull as [Hin _]. done.
  - intros [Hin Hdec]. exists (BuiltinFn name).
    apply map_lookup_filter_Some. split; [by apply full_builtins_lookup | done].
Qed.

(** ** Persistence of variables *)

Lemma ensure_builtins_keeps (h : gmap nat (gmap string value)) (gl l : nat)
    (k : string) (v : value) :
  deref h l !! k = Some v → deref (ensure_builtins h gl) l !! k = Some v.
Proof.
  intros Hk. unfold ensure_builtins.
  destruct (deref h gl !! "__builtins__") eqn:Hb; [done |].
  destruct (decide (gl = l)) as [-> | Hne].
  - rewrite deref_store_eq. rewrite lookup_insert_ne; [done |].
    intros <-. by rewrite Hb in Hk.
  - by rewrite deref_store_ne.
Qed.




(** A read from a function body finds what the globals hold once the state
    of the call is stored in them. *)
Lemma run_read_body {rt : PyRuntime} (w : world) (self : SimpleCodeExecutor) (ui : value)
    (x s : string) :
  <["ui_state" := ui]> (deref (w_heap w) (globals self)) !! x = Some (VStr s) →
  ∃ h, run_code w self (Program [SWriteOut (ELambdaCall (EName x))]) ui
       = (RunState h s "" 0, None).
Proof.
  intros Hx. eexists.
  unfold run_code, exec, exec_stmts, exec_stmt, eval, eval_body, load_global.
  cbv beta iota zeta delta [rs_heap rs_stdout rs_stderr rs_clock].
  rewrite (ensure_builtins_keeps _ _ _ x (VStr s)); [done |].
  by rewrite deref_store_eq.
Qed.

Lemma execute_read_body {rt : PyRuntime} (w : world) (self : SimpleCodeExecutor)
    (state : ExecuterState) (x s : string) (timeout : N) (ctx : nat) :
  <["ui_state" := ui_state state]> (deref (w_heap w) (globals self)) !! x = Some (VStr s) →
  (0 < timeout)%N →
  (execute w self state (Program [SWriteOut (ELambdaCall (EName x))]) timeout ctx).2 = inr s.
Proof.
  intros Hx Hpos. destruct (run_read_body w self (ui_state state) x s Hx) as [h Hrun].
  rewrite execute_in_time by (by rewrite Hrun). by rewrite Hrun.
Qed.







(** The name ui_state is the exception: with a shared scope the value a call
    assigns to it is replaced by the state injected at the next call. *)
Lemma ui_state_is_replaced :
  let r := __init__ (rt := sample_runtime) ∅ None None None true false None None None None in
  ∃ self, r.2 = inr self
    ∧ let first := execute (rt := sample_runtime) (World r.1 None) self no_state
                     (Program [SAssign "ui_state" (ELit (VStr "1"))]) 50 7 in
      ∃ s, (execute (rt := sample_runtime) first.1 self {| ui_state := VStr "fresh" |}
              (Program [SWriteOut (EName "ui_state")]) 50 7).2 = inr s ∧ s = "fresh".
Proof. eexists. split; [reflexivity |]. eexists. by vm_compute. Qed.

(** ** The capability policy *)

(** C6.  The decision function of the capability policy, used for the
    restricted builtins mapping and for the import guard alike: with the
    allow-set absent a name is permitted exactly when it is not blocked; with
    an allow-set that is explicitly empty no name is permitted; with an
    allow-set present only listed names are permitted, namely those listed and
    not blocked; a name in the block-set is denied whatever the allow-set. *)
Theorem policy_decision {rt : PyRuntime} (allowed blocked : option (gset string)) (name : string) :
  (decision_fn None blocked name = true ↔ in_opt_set name blocked = false)
  ∧ decision_fn (Some ∅) blocked name = false
  ∧ (∀ a, allowed = Some a →
       (decision_fn allowed blocked name = true
        ↔ name ∈ a ∧ in_opt_set name blocked = false))
  ∧ (∀ b, blocked = Some b → name ∈ b → decision_fn allowed blocked name = false)
  ∧ (name ∈ dom (create_safe_builtins allowed blocked)
     ↔ name ∈ builtin_names ∧ decision_fn allowed blocked name = true)
  ∧ import_permitted (create_safe_import allowed blocked) name
    = decision_fn allowed blocked name.
Proof.
  split; [| split; [| split; [| split; [| split]]]].
  - unfold decision_fn. by destruct (in_opt_set name blocked).
  - unfold decision_fn. destruct (in_opt_set name blocked); [done |].
    apply bool_decide_eq_false, not_elem_of_empty.
  - intros a ->. unfold decision_fn. destruct (in_opt_set name blocked).
    + split; [done | by intros [_ ?]].
    + rewrite bool_decide_eq_true. split; [done | by intros [? _]].
  - intros b -> Hin. unfold decision_fn, in_opt_set.
    by rewrite bool_decide_true.
  - apply safe_builtins_dom.
  - done.
Qed.

Lemma policy_decision_witness :
  decision_fn (Some {["math"]}) (Some {["os"]}) "math" = true
  ∧ decision_fn (Some {["math"]}) (Some {["os"]}) "os" = false
  ∧ decision_fn (Some {["math"; "os"]}) (Some {["os"]}) "os" = false
  ∧ decision_fn None (Some {["os"]}) "json" = true.
Proof.
  split; [| split; [| split]].
  - apply (proj1 (proj2 (proj2 (policy_decision (rt := sample_runtime)
      (Some {["math"]}) (Some {["os"]}) "math"))) {["math"]} eq_refl).
    split; [by vm_compute | reflexivity].
  - reflexivity.
  - exact (proj1 (proj2 (proj2 (proj2 (policy_decision (rt := sample_runtime)
      (Some {["math"; "os"]}) (Some {["os"]}) "os")))) {["os"]} eq_refl
      ltac:(by vm_compute)).
  - apply (proj1 (policy_decision (rt := sample_runtime) None (Some {["os"]}) "json")).
    reflexivity.
Defined.

(** * Further properties of the executor *)



(** X2.  The state of the current call is what code reads under the name
    ui_state when globals and locals are one mapping, or when the locals hold
    no ui_state: whatever an earlier call left under that name is replaced. *)
Theorem ui_state_current {rt : PyRuntime} (w : world) (self : SimpleCodeExecutor)
    (s : string) (timeout : N) (ctx : nat) :
  (globals self = locals self ∨ deref (w_heap w) (locals self) !! "ui_state" = None) →
  (0 < timeout)%N →
  (execute w self {| ui_state := VStr s |} (Program [SWriteOut (EName "ui_state")])
     timeout ctx).2 = inr s.
Proof.
  intros Hscope Hpos.
  assert (∃ h, run_code w self (Program [SWriteOut (EName "ui_state")]) (VStr s)
               = (RunState h s "" 0, None)) as [h Hrun].
  { eexists. unfold run_code, exec, exec_stmts, exec_stmt, eval, load_name.
    cbv beta iota zeta delta [rs_heap rs_stdout rs_stderr rs_clock].
    set (h1 := store (w_heap w) (globals self) "ui_state" (VStr s)).
    assert (deref h1 (globals self) !! "ui_state" = Some (VStr s)) as Hg.
    { unfold h1. rewrite deref_store_eq. apply lookup_insert_eq. }
    apply (ensure_builtins_keeps _ (globals self)) in Hg.
    destruct (decide (globals self = locals self)) as [Heq | Hne].
    - by rewrite <- Heq, Hg.
    - destruct Hscope as [Heq | Hnone]; [done |].
      assert (deref (ensure_builtins h1 (globals self)) (locals self) !! "ui_state" = None)
        as ->.
      { unfold ensure_builtins.
        destruct (deref h1 (globals self) !! "__builtins__");
          unfold h1; by rewrite !deref_store_ne. }
      by rewrite Hg. }
  rewrite execute_in_time by (cbn [ui_state]; by rewrite Hrun).
  cbn [ui_state]. by rewrite Hrun.
Qed.

Lemma ui_state_current_witness :
  (execute (rt := sample_runtime) sample_world sample_executor {| ui_state := VStr "screen" |}
     (Program [SWriteOut (EName "ui_state")]) 50 7).2 = inr "screen".
Proof.
  apply (ui_state_current (rt := sample_runtime) sample_world sample_executor "screen" 50 7).
  - right. reflexivity.
  - reflexivity.
Defined.

(** X3.  With separate scopes, a ui_state left in the locals (by an earlier
    assignment of the code, or by the caller) hides the state injected into
    the globals from the top level of the code, which reads the old value
    whatever state is passed; the body of a function in the same code reads
    the state of the current call. *)
Theorem ui_state_shadowed {rt : PyRuntime} (w : world) (self : SimpleCodeExecutor)
    (state : ExecuterState) (old : string) (timeout : N) (ctx : nat) :
  globals self ≠ locals self →
  deref (w_heap w) (locals self) !! "ui_state" = Some (VStr old) →
  (0 < timeout)%N →
  (execute w self state (Program [SWriteOut (EName "ui_state")]) timeout ctx).2 = inr old
  ∧ (∀ s, ui_state state = VStr s →
       (execute w self state (Program [SWriteOut (ELambdaCall (EName "ui_state"))])
          timeout ctx).2 = inr s).
Proof.
  intros Hne Hold Hpos. split.
  - assert (∃ h, run_code w self (Program [SWriteOut (EName "ui_state")]) (ui_state state)
                 = (RunState h old "" 0, None)) as [h Hrun].
    { eexists. unfold run_code, exec, exec_stmts, exec_stmt, eval, load_name.
      cbv beta iota zeta delta [rs_heap rs_stdout rs_stderr rs_clock].
      rewrite (ensure_builtins_keeps _ _ _ "ui_state" (VStr old)); [done |].
      by rewrite deref_store_ne. }
    rewrite execute_in_time by (by rewrite Hrun). by rewrite Hrun.
  - intros s Hs. apply execute_read_body; [| done].
    rewrite Hs. apply lookup_insert_eq.
Qed.

Lemma ui_state_shadowed_witness :
  let w1 := (execute (rt := sample_runtime) sample_world sample_executor no_state
               (Program [SAssign "ui_state" (ELit (VStr "stale"))]) 50 7).1 in
  (execute (rt := sample_runtime) w1 sample_executor {| ui_state := VStr "screen" |}
     (Program [SWriteOut (EName "ui_state")]) 50 7).2 = inr "stale"
  ∧ (execute (rt := sample_runtime) w1 sample_executor {| ui_state := VStr "screen" |}
       (Program [SWriteOut (ELambdaCall (EName "ui_state"))]) 50 7).2 = inr "screen".
Proof.
  destruct (ui_state_shadowed (rt := sample_runtime)
    (execute (rt := sample_runtime) sample_world sample_executor no_state
       (Program [SAssign "ui_state" (ELit (VStr "stale"))]) 50 7).1
    sample_executor {| ui_state := VStr "screen" |} "stale" 50 7) as [Htop Hbody];
    [by vm_compute | reflexivity | reflexivity |].
  split; [exact Htop | exact (Hbody "screen" eq_refl)].
Defined.

(** ** Construction, step by step *)

Lemma arg_dict_dom (h h' : gmap nat (gmap string value)) (arg : option nat) (l : nat) :
  match arg with Some l0 => (l0, h) | None => alloc h ∅ end = (l, h') →
  dom h ⊆ dom h' ∧ (arg = None → l ∈ dom h').
Proof.
  destruct arg as [l0|]; intros Heq.
  - injection Heq as <- <-. done.
  - unfold alloc in Heq. injection Heq as <- <-. rewrite dom_insert_L.
    split; [set_solver | intros _; set_solver].
Qed.

(** The state of [__init__] once ["__builtins__"] is stored: [ll] and [gl] are
    the locals and globals dictionaries, [h2] the heap. *)
Lemma init_steps {rt : PyRuntime} (h : gmap nat (gmap string value)) (locals0 globals0 : option nat)
    (tools : option tools_arg) (uss sm : bool) (am bm ab bb : option (gset string)) :
  ∃ (ll gl : nat) (h2 : gmap nat (gmap string value)),
    (∀ l, locals0 = Some l → ll = l)
    ∧ (∀ l, globals0 = Some l → gl = l)
    ∧ deref h2 gl
      = <["__builtins__" := installed_builtins sm am bm ab bb]> (initial_dict h globals0)
    ∧ (∀ l, l ≠ gl → deref h2 l = deref h l)
    ∧ deref h ll = initial_dict h locals0
    ∧ deref h gl = initial_dict h globals0
    ∧ dom h ⊆ dom h2
    ∧ gl ∈ dom h2
    ∧ (globals0 = None → gl ∉ dom h)
    ∧ __init__ h locals0 globals0 tools uss sm am bm ab bb
      = (let '(h3, raised) :=
           match default (ToolsDict ∅) tools with
           | ToolsDict d => (update h2 gl d, None)
           | ToolsList ts => add_tools h2 gl ts
           | ToolsOther _ =>
               (h2, Some (Exn ValueError
                            "Tools must be a dictionary or a list of functions." 111))
           end in
         match raised with
         | Some e => (h3, inl e)
         | None =>
             if uss then
               let '(l, h4) :=
                 alloc h3 (deref h3 ll
                           ∪ filter (λ kv, kv.1 ∉ dom (deref h3 ll)) (deref h3 gl)) in
               (h4, inr {| safe_mode := sm; globals := l; locals := l;
                           use_same_scope := uss |})
             else
               (h3, inr {| safe_mode := sm; globals := gl; locals := ll;
                           use_same_scope := uss |})
         end).
Proof.
  unfold __init__.
  destruct (match locals0 with Some l => (l, h) | None => alloc h ∅ end)
    as [ll h0] eqn:Hl.
  destruct (match globals0 with Some l => (l, h0) | None => alloc h0 ∅ end)
    as [gl h1] eqn:Hg.
  pose proof (arg_dict_dom _ _ _ _ Hl) as [Hl_dom Hl_new].
  pose proof (arg_dict_dom _ _ _ _ Hg) as [Hg_dom Hg_new].
  pose proof Hg as Hg_alloc.
  apply arg_dict in Hl as (Hl_same & Hl_init & Hl_arg).
  apply arg_dict in Hg as (Hg_same & Hg_init & Hg_arg).
  rewrite init_builtins_store.
  exists ll, gl, (store h1 gl "__builtins__" (installed_builtins sm am bm ab bb)).
  assert (deref h gl = initial_dict h globals0) as Hg0.
  { rewrite <- Hl_same, Hg_init. destruct globals0; simpl; [apply Hl_same | done]. }
  split; [done |]. split; [done |].
  split. { by rewrite deref_store_eq, Hg_same, Hl_same, Hg0. }
  split. { intros l Hne. rewrite deref_store_ne by done. by rewrite Hg_same, Hl_same. }
  split; [done |]. split; [done |].
  split. { intros l Hin. apply store_allocated. right. by apply Hg_dom, Hl_dom. }
  split. { apply store_allocated. by left. }
  split; [| done].
  intros ->. unfold alloc in Hg_alloc. injection Hg_alloc as <- _.
  intros Hin. apply (fresh_unallocated h0). by apply Hl_dom.
Qed.

Lemma add_tools_prefix (pre rest : list value) (h : gmap nat (gmap string value)) (gl : nat) :
  Forall (λ tool, is_Some (get_name tool)) pre →
  add_tools h gl (pre ++ rest) = add_tools (add_tools h gl pre).1 gl rest.
Proof.
  intros Hall. revert h. induction Hall as [|tool pre [name Hname] _ IH]; intros h; simpl.
  - done.
  - rewrite Hname. apply IH.
Qed.

(** X4.  A construction that fails has already changed the caller's globals:
    the ["__builtins__"] entry is stored before the [tools] argument is
    looked at, and the tools of a list that precede the element without
    [__name__] are bound before AttributeError is raised. *)
Theorem init_failure_mutates_globals {rt : PyRuntime} (h : gmap nat (gmap string value))
    (locals0 : option nat) (g : nat) (uss sm : bool) (am bm ab bb : option (gset string)) :
  (∀ v,
     let r := __init__ h locals0 (Some g) (Some (ToolsOther v)) uss sm am bm ab bb in
     (∃ e, r.2 = inl e)
     ∧ deref r.1 g = <["__builtins__" := installed_builtins sm am bm ab bb]> (deref h g))
  ∧ (∀ pre bad rest,
       Forall (λ tool, is_Some (get_name tool)) pre →
       get_name bad = None →
       let r := __init__ h locals0 (Some g) (Some (ToolsList (pre ++ bad :: rest)))
                  uss sm am bm ab bb in
       (∃ e, r.2 = inl e)
       ∧ deref r.1 g
         = list_bindings pre
           ∪ <["__builtins__" := installed_builtins sm am bm ab bb]> (deref h g)).
Proof.
  split.
  - intros v r. unfold r.
    destruct (init_steps h locals0 (Some g) (Some (ToolsOther v)) uss sm am bm ab bb)
      as (ll & gl & h2 & _ & Hg & Hgl2 & _ & _ & _ & _ & _ & _ & ->).
    rewrite (Hg g eq_refl) in *. simpl. by eauto.
  - intros pre bad rest Hpre Hbad r. unfold r.
    destruct (init_steps h locals0 (Some g) (Some (ToolsList (pre ++ bad :: rest)))
                uss sm am bm ab bb)
      as (ll & gl & h2 & _ & Hg & Hgl2 & _ & _ & _ & _ & _ & _ & ->).
    rewrite (Hg g eq_refl) in *. simpl in *.
    rewrite add_tools_prefix by done.
    pose proof (add_tools_named pre h2 g Hpre) as Hok.
    destruct (add_tools h2 g pre) as [h3 raised] eqn:Hadd. simpl in Hok. subst raised.
    apply add_tools_ok in Hadd as (Hgl3 & _). simpl. rewrite Hbad. simpl.
    split; [by eauto |]. by rewrite Hgl3, Hgl2.
Qed.

Lemma init_failure_mutates_globals_witness :
  let h0 : gmap nat (gmap string value) := <[5 := ∅]> ∅ in
  let r := __init__ (rt := sample_runtime) h0 None (Some 5)
             (Some (ToolsList ([tap] ++ partial_tap :: []))) true false None None None None in
  (∃ e, r.2 = inl e)
  ∧ deref r.1 5 = {["tap" := tap]} ∪ <["__builtins__" := VBuiltinsModule]> ∅.
Proof.
  refine (proj2 (init_failure_mutates_globals (rt := sample_runtime) (<[5 := ∅]> ∅) None 5
    true false None None None None) [tap] partial_tap [] _ eq_refl).
  repeat constructor. by exists "tap".
Defined.

Lemma add_tools_dom (ts : list value) (h : gmap nat (gmap string value)) (gl : nat) :
  dom h ⊆ dom (add_tools h gl ts).1.
Proof.
  revert h. induction ts as [|tool ts IH]; intros h; simpl; [done |].
  destruct (get_name tool) as [name|]; [| done].
  etrans; [| apply IH]. intros l Hl. apply store_allocated. by right.
Qed.

Lemma merge_scopes (m1 m2 : gmap string value) :
  m1 ∪ filter (λ kv, kv.1 ∉ dom m1) m2 = m1 ∪ m2.
Proof.
  apply map_eq. intros k. destruct (m1 !! k) as [v|] eqn:Hk.
  - by rewrite !(lookup_union_Some_l _ _ _ _ Hk).
  - rewrite !lookup_union_r by done.
    destruct (m2 !! k) as [v|] eqn:Hk2.
    + apply map_lookup_filter_Some_2; [done |]. simpl. by apply not_elem_of_dom.
    + apply map_lookup_filter_None_2. by left.
Qed.

(** What a successful construction with [use_same_scope = True] leaves. *)
Lemma init_shared {rt : PyRuntime} (h : gmap nat (gmap string value))
    (locals0 globals0 : option nat) (tools : option tools_arg) (sm : bool)
    (am bm ab bb : option (gset string))
    (h' : gmap nat (gmap string value)) (self : SimpleCodeExecutor) :
  __init__ h locals0 globals0 tools true sm am bm ab bb = (h', inr self) →
  ∃ (ll gl : nat) (h3 : gmap nat (gmap string value)),
    (∀ l, locals0 = Some l → ll = l)
    ∧ (∀ l, globals0 = Some l → gl = l)
    ∧ deref h3 gl
      = tool_bindings tools
        ∪ <["__builtins__" := installed_builtins sm am bm ab bb]> (initial_dict h globals0)
    ∧ (∀ l, l ≠ gl → deref h3 l = deref h l)
    ∧ deref h ll = initial_dict h locals0
    ∧ deref h gl = initial_dict h globals0
    ∧ dom h ⊆ dom h3
    ∧ (globals0 = None → gl ∉ dom h)
    ∧ h' = <[fresh (dom h3) := deref h3 ll ∪ deref h3 gl]> h3
    ∧ globals self = fresh (dom h3) ∧ locals self = fresh (dom h3).
Proof.
  destruct (init_steps h locals0 globals0 tools true sm am bm ab bb)
    as (ll & gl & h2 & Hl & Hg & Hgl2 & Hother2 & Hl0 & Hg0 & Hdom2 & Hin2 & Hnew & ->).
  assert (∀ (h3 : gmap nat (gmap string value)),
            deref h3 gl = tool_bindings tools ∪ deref h2 gl →
            (∀ l, l ≠ gl → deref h3 l = deref h2 l) →
            dom h2 ⊆ dom h3 →
            (let '(l, h4) :=
               alloc h3 (deref h3 ll ∪ filter (λ kv, kv.1 ∉ dom (deref h3 ll)) (deref h3 gl)) in
             (h4, @inr exn SimpleCodeExecutor
                    {| safe_mode := sm; globals := l; locals := l; use_same_scope := true |}))
            = (h', inr self) →
            ∃ (ll gl : nat) (h3 : gmap nat (gmap string value)),
              (∀ l, locals0 = Some l → ll = l)
              ∧ (∀ l, globals0 = Some l → gl = l)
              ∧ deref h3 gl
                = tool_bindings tools
                  ∪ <["__builtins__" := installed_builtins sm am bm ab bb]>
                      (initial_dict h globals0)
              ∧ (∀ l, l ≠ gl → deref h3 l = deref h l)
              ∧ deref h ll = initial_dict h locals0
              ∧ deref h gl = initial_dict h globals0
              ∧ dom h ⊆ dom h3
              ∧ (globals0 = None → gl ∉ dom h)
              ∧ h' = <[fresh (dom h3) := deref h3 ll ∪ deref h3 gl]> h3
              ∧ globals self = fresh (dom h3) ∧ locals self = fresh (dom h3)) as Hfinish.
  { intros h3 Hgl3 Hother3 Hdom3. unfold alloc. rewrite merge_scopes.
    intros [= <- <-]. exists ll, gl, h3.
    split; [done |]. split; [done |]. split; [by rewrite Hgl3, Hgl2 |].
    split. { intros l Hne. by rewrite Hother3, Hother2. }
    split; [done |]. split; [done |].
    split; [by etrans |]. done. }
  destruct tools as [[d | ts | v] |]; simpl.
  - apply Hfinish; try apply deref_update.
    unfold update. rewrite dom_insert_L. set_solver.
  - pose proof (add_tools_dom ts h2 gl) as Hdom3.
    destruct (add_tools h2 gl ts) as [h3 [e|]] eqn:Hadd; [done |].
    apply add_tools_ok in Hadd as (Hgl3 & Hother3 & _).
    by apply Hfinish.
  - done.
  - apply Hfinish; try apply deref_update.
    unfold update. rewrite dom_insert_L. set_solver.
Qed.

(** X5.  With [use_same_scope = True] the executor's scope is one new
    dictionary: it holds the caller's locals over the tools, the
    ["__builtins__"] entry and the caller's globals, and it is no dictionary
    that existed before.  The caller's locals dictionary, and every other
    dictionary but the caller's globals, is left as it was. *)
Theorem init_shared_scope {rt : PyRuntime} (h : gmap nat (gmap string value))
    (locals0 globals0 : option nat) (tools : option tools_arg) (sm : bool)
    (am bm ab bb : option (gset string))
    (h' : gmap nat (gmap string value)) (self : SimpleCodeExecutor) :
  __init__ h locals0 globals0 tools true sm am bm ab bb = (h', inr self) →
  (∀ l, locals0 = Some l → globals0 ≠ Some l) →
  globals self = locals self
  ∧ (globals self ∉ dom h)
  ∧ deref h' (globals self)
    = initial_dict h locals0
      ∪ (tool_bindings tools
         ∪ <["__builtins__" := installed_builtins sm am bm ab bb]> (initial_dict h globals0))
  ∧ (∀ l, l ∈ dom h → globals0 ≠ Some l → deref h' l = deref h l).
Proof.
  intros Hinit Hdistinct.
  apply init_shared in Hinit
    as (ll & gl & h3 & Hl & Hg & Hgl3 & Hother3 & Hl0 & Hg0 & Hdom3 & Hnew & -> & -> & ->).
  pose proof (fresh_unallocated h3) as Hfresh.
  split; [done |]. split; [intros Hin; by apply Hfresh, Hdom3 |].
  split.
  - rewrite deref_insert_eq.
    destruct (decide (ll = gl)) as [Heq | Hne]; [| by rewrite Hother3, Hl0, Hgl3].
    (* one reference for both: a new dictionary is involved, and both start empty *)
    assert (initial_dict h locals0 = ∅) as ->.
    { rewrite <- Hl0, Heq, Hg0.
      destruct globals0 as [g|]; [| done]. destruct locals0 as [l|]; [| by rewrite <- Hg0, <- Heq].
      exfalso. apply (Hdistinct l eq_refl). f_equal.
      by rewrite <- (Hl l eq_refl), <- (Hg g eq_refl). }
    rewrite Heq, Hgl3, (left_id_L ∅ (∪)). apply (idemp_L (∪)).
  - intros l Hin Hne. rewrite deref_insert_ne.
    + apply Hother3. intros ->. destruct globals0 as [g|].
      * apply Hne. f_equal. symmetry. by apply Hg.
      * by apply Hnew.
    + intros Heq. apply Hfresh. rewrite Heq. by apply Hdom3.
Qed.

Lemma init_shared_scope_witness :
  let h0 : gmap nat (gmap string value) :=
    <[1 := {["flag" := VInt 1]}]> (<[0 := {["seen" := VInt 2]}]> ∅) in
  let r := __init__ (rt := sample_runtime) h0 (Some 0) (Some 1)
             (Some (ToolsDict {["tap" := tap]})) true false None None None None in
  ∃ self, r.2 = inr self
    ∧ deref r.1 (globals self)
      = {["seen" := VInt 2]}
        ∪ ({["tap" := tap]} ∪ <["__builtins__" := VBuiltinsModule]> {["flag" := VInt 1]})
    ∧ deref r.1 0 = {["seen" := VInt 2]}.
Proof.
  eexists. split; [reflexivity |].
  pose proof (init_shared_scope (rt := sample_runtime)
    (<[1 := {["flag" := VInt 1]}]> (<[0 := {["seen" := VInt 2]}]> ∅)) (Some 0) (Some 1)
    (Some (ToolsDict {["tap" := tap]})) false None None None None _ _ eq_refl)
    as (_ & _ & Hmerged & Hframe).
  { intros l [= <-]. by intros [=]. }
  split; [exact Hmerged |].
  apply Hframe; [by vm_compute | by intros [=]].
Defined.






(** X7.  The ["__builtins__"] entry that the executed code runs with.  Unless
    a tool is named [__builtins__], it is the value [__init__] installs (the
    restricted mapping in safe mode) when the scopes are separate, or when the
    caller's initial locals have no such key.  With a shared scope, a
    ["__builtins__"] key of the caller's initial locals takes its place, in
    safe mode too. *)
Theorem builtins_in_force {rt : PyRuntime} (h : gmap nat (gmap string value))
    (locals0 globals0 : option nat) (tools : option tools_arg) (uss sm : bool)
    (am bm ab bb : option (gset string))
    (h' : gmap nat (gmap string value)) (self : SimpleCodeExecutor) :
  __init__ h locals0 globals0 tools uss sm am bm ab bb = (h', inr self) →
  (tool_bindings tools !! "__builtins__" = None →
   uss = false ∨ initial_dict h locals0 !! "__builtins__" = None →
   deref h' (globals self) !! "__builtins__" = Some (installed_builtins sm am bm ab bb))
  ∧ (∀ v, uss = true →
       initial_dict h locals0 !! "__builtins__" = Some v →
       globals0 ≠ locals0 →
       deref h' (globals self) !! "__builtins__" = Some v).
Proof.
  intros Hinit.
  pose proof Hinit as Hinv.
  apply init_inv in Hinv
    as (ll & gl & h3 & Hl & Hg & Hgl3 & Hll3 & Hdom3 & Hret & Hl0 & Hg0).
  assert (tool_bindings tools !! "__builtins__" = None →
          deref h3 gl !! "__builtins__" = Some (installed_builtins sm am bm ab bb)) as Hgb.
  { intros Htool. rewrite Hgl3, lookup_union_r by done. apply lookup_insert_eq. }
  split.
  - intros Htool Hcase. specialize (Hgb Htool). destruct uss.
    + destruct Hcase as [? | Hnone]; [done |].
      destruct Hret as (-> & -> & _). rewrite deref_insert_eq.
      destruct Hll3 as [-> | Hll3].
      * by rewrite (lookup_union_Some_l _ _ _ _ Hgb).
      * rewrite lookup_union_r by (by rewrite Hll3).
        apply map_lookup_filter_Some_2; [done |]. simpl.
        apply not_elem_of_dom. by rewrite Hll3.
    + by destruct Hret as (-> & -> & _).
  - intros v -> Hv Hdistinct.
    destruct Hret as (-> & -> & _). rewrite deref_insert_eq.
    apply lookup_union_Some_l.
    destruct Hll3 as [Heq | ->]; [| done].
    (* one reference for both arguments would make them equal or both empty *)
    exfalso. destruct locals0 as [l|]; [| done].
    rewrite <- Hl0, Heq, Hg0 in Hv.
    destruct globals0 as [g|]; [| done].
    apply Hdistinct. f_equal. by rewrite <- (Hl l eq_refl), <- (Hg g eq_refl).
Qed.

Lemma builtins_in_force_witness :
  let h0 : gmap nat (gmap string value) := <[0 := {["__builtins__" := VBuiltinsModule]}]> ∅ in
  let r := __init__ (rt := sample_runtime) h0 (Some 0) None None true true
             None None (Some ∅) None in
  ∃ self, r.2 = inr self
    ∧ deref r.1 (globals self) !! "__builtins__" = Some VBuiltinsModule.
Proof.
  eexists. split; [reflexivity |].
  refine (proj2 (builtins_in_force (rt := sample_runtime)
    (<[0 := {["__builtins__" := VBuiltinsModule]}]> ∅) (Some 0) None None true true
    None None (Some ∅) None _ _ eq_refl) VBuiltinsModule eq_refl eq_refl _).
  done.
Defined.

(** ** A call that times out *)

Lemma store_other_key (h : gmap nat (gmap string value)) (l l' : nat) (k k' : string)
    (v : value) :
  k ≠ k' → deref (store h l k v) l' !! k' = deref h l' !! k'.
Proof.
  intros Hk. destruct (decide (l = l')) as [<- | Hl].
  - by rewrite deref_store_eq, lookup_insert_ne.
  - by rewrite deref_store_ne.
Qed.

Lemma ensure_builtins_other_key (h : gmap nat (gmap string value)) (gl l : nat) (k : string) :
  k ≠ "__builtins__" → deref (ensure_builtins h gl) l !! k = deref h l !! k.
Proof.
  intros Hk. unfold ensure_builtins.
  destruct (deref h gl !! "__builtins__"); [done |]. by apply store_other_key.
Qed.

(** X21.  The context slot when [execute] returns.  When the worker ends
    within the timeout, [execute] returns the world the worker leaves, with
    the slot cleared.  When the worker is still running at the deadline of a
    timeout above 0, [execute] returns with the slot still holding the
    context of this call; it is cleared only when the worker finishes. *)
Theorem execute_context_slot {rt : PyRuntime} (w : world) (self : SimpleCodeExecutor)
    (state : ExecuterState) (code0 : code) (timeout : N) (ctx : nat) :
  let run := run_code w self code0 (ui_state state) in
  let call := execute w self state code0 timeout ctx in
  let worker := _execute_in_thread w self code0 (ui_state state) (Some ctx) in
  ((rs_clock run.1 < timeout)%N → call.1 = worker.1.1 ∧ _exec_context call.1 = None)
  ∧ ((0 < timeout < rs_clock run.1)%N →
     _exec_context call.1 = Some ctx ∧ _exec_context worker.1.1 = None).
Proof.
  intros run call worker. unfold run, call, worker. split.
  - intros Hlt. rewrite execute_in_time by done. by rewrite _execute_in_thread_run.
  - intros [_ Hlt]. rewrite execute_late by lia.
    split; [| by rewrite _execute_in_thread_run].
    unfold worker_at. rewrite _execute_in_thread_run.
    cbv beta iota zeta. apply N.leb_gt in Hlt as ->.
    by destruct (exec _ _ _ _).
Qed.

Lemma execute_context_slot_witness :
  let prog := Program [SSleep 60; SAssign "x" (ELit (VInt 1))] in
  let call := execute (rt := sample_runtime) sample_world sample_executor no_state prog 50 7 in
  call.2 = inr "Error: Execution timed out after 50.0 seconds"
  ∧ _exec_context call.1 = Some 7
  ∧ _exec_context (_execute_in_thread (rt := sample_runtime) sample_world sample_executor
                     prog VNone (Some 7)).1.1 = None.
Proof.
  split; [reflexivity |].
  refine (proj2 (execute_context_slot (rt := sample_runtime) sample_world
    sample_executor no_state (Program [SSleep 60; SAssign "x" (ELit (VInt 1))]) 50 7) _);
    by vm_compute.
Defined.

(** X22.  What the code does after the deadline is not done when [execute]
    returns, and is done all the same.  For code that sleeps beyond a
    timeout above 0 and then assigns a variable, [execute] returns the timeout text
    with the state of the call already stored under ui_state and the variable
    as it was; the worker, which is not stopped, assigns it later. *)
Theorem late_assignment_pending {rt : PyRuntime} (w : world) (self : SimpleCodeExecutor)
    (state : ExecuterState) (x : string) (v : value) (d timeout : N) (ctx : nat) :
  (0 < timeout < d)%N →
  x ≠ "ui_state" → x ≠ "__builtins__" →
  let code0 := Program [SSleep d; SAssign x (ELit v)] in
  let call := execute w self state code0 timeout ctx in
  let worker := _execute_in_thread w self code0 (ui_state state) (Some ctx) in
  call.2 = inr ("Error: Execution timed out after " +:+ format_number timeout +:+ " seconds")
  ∧ deref (w_heap call.1) (locals self) !! x = deref (w_heap w) (locals self) !! x
  ∧ deref (w_heap call.1) (globals self) !! "ui_state" = Some (ui_state state)
  ∧ deref (w_heap worker.1.1) (locals self) !! x = Some v.
Proof.
  intros [_ Hlt] Hui Hbuiltins code0 call worker. unfold call, worker, code0.
  assert (run_code w self (Program [SSleep d; SAssign x (ELit v)]) (ui_state state)
          = (RunState
               (store (ensure_builtins (store (w_heap w) (globals self) "ui_state"
                                          (ui_state state)) (globals self))
                  (locals self) x v) "" "" d, None)) as Hrun by done.
  rewrite execute_late by (rewrite Hrun; cbn [fst rs_clock]; lia).
  assert (worker_at w self (Program [SSleep d; SAssign x (ELit v)]) (ui_state state) ctx timeout
          = World (ensure_builtins (store (w_heap w) (globals self) "ui_state" (ui_state state))
                     (globals self)) (Some ctx)) as ->.
  { unfold worker_at. rewrite _execute_in_thread_run, Hrun.
    cbv beta iota zeta delta [fst snd rs_clock].
    pose proof Hlt as Hgt. apply N.leb_gt in Hgt as ->.
    unfold begun_by, duration.
    assert ((0 <=? timeout)%N = true) as -> by (apply N.leb_le; lia).
    assert ((0 + d <=? timeout)%N = false) as -> by (apply N.leb_gt; lia).
    done. }
  rewrite _execute_in_thread_run, Hrun.
  cbn [fst snd w_heap rs_heap].
  split; [done |]. split; [| split].
  - rewrite ensure_builtins_other_key by done. by apply store_other_key.
  - apply ensure_builtins_keeps. rewrite deref_store_eq. apply lookup_insert_eq.
  - rewrite deref_store_eq. apply lookup_insert_eq.
Qed.

Lemma late_assignment_pending_witness :
  let prog := Program [SSleep 60; SAssign "x" (ELit (VInt 1))] in
  let call := execute (rt := sample_runtime) sample_world sample_executor no_state prog 50 7 in
  deref (w_heap call.1) 0 !! "x" = None
  ∧ deref (w_heap (_execute_in_thread (rt := sample_runtime) sample_world sample_executor
                     prog VNone (Some 7)).1.1) 0 !! "x" = Some (VInt 1).
Proof.
  pose proof (late_assignment_pending (rt := sample_runtime) sample_world sample_executor
    no_state "x" (VInt 1) 60 50 7) as Hlate.
  destruct Hlate as (_ & Hreturn & _ & Hdone); [by vm_compute | done | done |].
  split; [exact Hreturn | exact Hdone].
Defined.

(** * Properties of the agent *)

Section agent_properties.
Context {E : Type} {collaborators : Collaborators E}.

(** ** The monad *)

Lemma bind_inv {A B : Type} (m : M E A) (k : A → M E B) (w w' : agent_world E) (r : exn + B) :
  (m ≫= k) w = (w', r) →
  (∃ e, m w = (w', inl e) ∧ r = inl e)
  ∨ (∃ a w1, m w = (w1, inr a) ∧ k a w1 = (w', r)).
Proof.
  unfold mbind, M_bind. destruct (m w) as [w1 [e | a]].
  - intros [= <- <-]. left. by exists e.
  - intros Hk. right. by exists a, w1.
Qed.

Lemma try_except_inv {A : Type} (body : M E A) (handler : exn → M E A)
    (w w' : agent_world E) (r : exn + A) :
  try_except body handler w = (w', r) →
  (∃ a, body w = (w', inr a) ∧ r = inr a)
  ∨ (∃ e, body w = (w', inl e) ∧ r = inl e ∧ cls_is_Exception (exn_class_of e) = false)
  ∨ (∃ e w1, body w = (w1, inl e) ∧ cls_is_Exception (exn_class_of e) = true
             ∧ handler e w1 = (w', r)).
Proof.
  unfold try_except. destruct (body w) as [w1 [e | a]].
  - destruct (cls_is_Exception (exn_class_of e)) eqn:Hcls.
    + intros Hh. right. right. by exists e, w1.
    + intros [= <- <-]. right. left. by exists e.
  - intros [= <- <-]. left. by exists a.
Qed.

Lemma task_dict_setitem (task : nat) (key : string) (v : pyval) (w : agent_world E) :
  task_dict (setitem task key v w).1 task = <[key := v]> (task_dict w task).
Proof. unfold task_dict; simpl. by rewrite lookup_insert_eq. Qed.

(** ** [_execute_task_with_codeact] *)

Lemma execute_task_unfold (task : nat) (w : agent_world E) (description : pyval) :
  task_dict w task !! "description" = Some description →
  _execute_task_with_codeact task w =
    match codeact_run description (started task w) with
    | (w3, inr result) =>
        let tools := aw_tools w3 in
        if truthy (finished tools) then
          if truthy (success tools) then
            (marked task STATUS_COMPLETED w3,
             inr (true, py_or (reason tools) (PStr "Task completed successfully")))
          else
            (failed task (py_or (reason tools) (PStr "Task failed without specific reason")) w3,
             inr (false, py_or (reason tools) (PStr "Task failed without specific reason")))
        else if reports_success result then
          (marked task STATUS_COMPLETED w3,
           inr (true, get_reason result (PStr "Task completed successfully")))
        else
          let why := match result with
                     | RDict _ => get_reason result (PStr "Unknown failure")
                     | RValue _ => PStr "Task execution failed"
                     end in
          (failed task why w3, inr (false, why))
    | (w3, inl e) =>
        if cls_is_Exception (exn_class_of e) then
          (failed task (PStr ("Error: " +:+ exn_str e)) w3,
           inr (false, PStr ("Error: " +:+ exn_str e)))
        else (w3, inl e)
    end.
Proof.
  intros Hd. unfold _execute_task_with_codeact, started, marked, failed.
  unfold mbind at 1. unfold M_bind at 1. unfold getitem at 1. rewrite Hd.
  unfold mbind at 1. unfold M_bind at 1. simpl.
  unfold try_except.
  unfold mbind at 1. unfold M_bind at 1. simpl.
  unfold mbind at 1. unfold M_bind at 1.
  destruct (codeact_run description _) as [w3 [e | result]]; [done |].
  unfold mbind, M_bind, get_tools, mret, M_ret. simpl.
  destruct (truthy (finished (aw_tools w3))), (truthy (success (aw_tools w3)));
    try done; by destruct (reports_success result).
Qed.

Lemma execute_task_no_description (task : nat) (w : agent_world E) :
  task_dict w task !! "description" = None →
  _execute_task_with_codeact task w = (w, inl (key_error "description" 304)).
Proof.
  intros Hd. unfold _execute_task_with_codeact.
  unfold mbind at 1. unfold M_bind at 1. unfold getitem at 1. by rewrite Hd.
Qed.

Lemma task_dict_marked (task : nat) (status : pyval) (w : agent_world E) :
  task_dict (marked task status w) task !! "status" = Some status.
Proof. unfold marked. rewrite task_dict_setitem. apply lookup_insert_eq. Qed.

Lemma task_dict_failed (task : nat) (why : pyval) (w : agent_world E) :
  task_dict (failed task why w) task !! "status" = Some STATUS_FAILED
  ∧ task_dict (failed task why w) task !! "failure_reason" = Some why.
Proof.
  unfold failed. rewrite !task_dict_setitem. split.
  - rewrite lookup_insert_ne by done. apply lookup_insert_eq.
  - apply lookup_insert_eq.
Qed.

Lemma execute_task_post (task : nat) (w w' : agent_world E) (ok : bool) (why : pyval) :
  _execute_task_with_codeact task w = (w', inr (ok, why)) →
  (ok = true → task_dict w' task !! "status" = Some STATUS_COMPLETED)
  ∧ (ok = false →
     task_dict w' task !! "status" = Some STATUS_FAILED
     ∧ task_dict w' task !! "failure_reason" = Some why).
Proof.
  destruct (task_dict w task !! "description") as [description|] eqn:Hd.
  - rewrite (execute_task_unfold _ _ _ Hd).
    destruct (codeact_run description (started task w)) as [w3 [e | result]].
    + destruct (cls_is_Exception (exn_class_of e)); [| done].
      intros [= <- <- <-]. split; [done | intros _; apply task_dict_failed].
    + cbv zeta.
      destruct (truthy (finished (aw_tools w3))).
      * destruct (truthy (success (aw_tools w3))); intros [= <- <- <-].
        -- split; [intros _; apply task_dict_marked | done].
        -- split; [done | intros _; apply task_dict_failed].
      * destruct (reports_success result); intros [= <- <- <-].
        -- split; [intros _; apply task_dict_marked | done].
        -- split; [done | intros _; apply task_dict_failed].
  - by rewrite (execute_task_no_description _ _ Hd).
Qed.

Lemma execute_task_raises (task : nat) (w w' : agent_world E) (e : exn) :
  _execute_task_with_codeact task w = (w', inl e) →
  cls_is_Exception (exn_class_of e) = true →
  e = key_error "description" 304 ∧ w' = w ∧ task_dict w task !! "description" = None.
Proof.
  destruct (task_dict w task !! "description") as [description|] eqn:Hd.
  - rewrite (execute_task_unfold _ _ _ Hd).
    destruct (codeact_run description (started task w)) as [w3 [e' | result]].
    + destruct (cls_is_Exception (exn_class_of e')) eqn:Hcls; [done |].
      intros [= <- <-]. by rewrite Hcls.
    + cbv zeta.
      by destruct (truthy (finished (aw_tools w3))), (truthy (success (aw_tools w3))),
           (reports_success result).
  - rewrite (execute_task_no_description _ _ Hd). by intros [= <- <-].
Qed.

(** X8.  What [_execute_task_with_codeact] returns agrees with what it
    leaves in the task: on [True] the task's status is STATUS_COMPLETED; on
    [False] the status is STATUS_FAILED and the task's failure_reason is the
    very reason returned.  The task is never left pending or attempting. *)
Theorem execute_task_outcome (task : nat) (w w' : agent_world E) (ok : bool) (why : pyval) :
  _execute_task_with_codeact task w = (w', inr (ok, why)) →
  (ok = true → task_dict w' task !! "status" = Some STATUS_COMPLETED)
  ∧ (ok = false →
     task_dict w' task !! "status" = Some STATUS_FAILED
     ∧ task_dict w' task !! "failure_reason" = Some why).
Proof. apply execute_task_post. Qed.


(** X10.  The flags of the tools object are reset before the CodeAct agent
    runs: what they held before the call (a [finished] left over from an
    earlier task, say) has no influence on the result. *)
Theorem execute_task_ignores_stale_flags (task : nat) (w : agent_world E)
    (stale : tools_instance) :
  (_execute_task_with_codeact task
     (AgentWorld (aw_tasks w) stale (aw_trajectory w) (aw_env w))).2
  = (_execute_task_with_codeact task w).2
  ∧ (is_Some (task_dict w task !! "description") →
     _execute_task_with_codeact task
       (AgentWorld (aw_tasks w) stale (aw_trajectory w) (aw_env w))
     = _execute_task_with_codeact task w).
Proof.
  set (w0 := AgentWorld (aw_tasks w) stale (aw_trajectory w) (aw_env w)).
  assert (task_dict w0 task = task_dict w task) as Hsame by done.
  destruct (task_dict w task !! "description") as [description|] eqn:Hd.
  - assert (_execute_task_with_codeact task w0 = _execute_task_with_codeact task w) as ->;
      [| by split].
    rewrite (execute_task_unfold task w description Hd).
    rewrite (execute_task_unfold task w0 description) by by rewrite Hsame.
    done.
  - rewrite !execute_task_no_description by by rewrite ?Hsame.
    split; [done | by intros [? [=]]].
Qed.

(** X11.  Once the tools object reports [finished], its [success] flag alone
    decides: the value the CodeAct agent returned is not consulted, not even
    a dictionary that says success. *)
Theorem execute_task_finished_flag (task : nat) (w w3 : agent_world E)
    (description : pyval) (result : agent_result) :
  task_dict w task !! "description" = Some description →
  codeact_run description (started task w) = (w3, inr result) →
  truthy (finished (aw_tools w3)) = true →
  (_execute_task_with_codeact task w).2
  = inr (truthy (success (aw_tools w3)),
         py_or (reason (aw_tools w3))
           (PStr (if truthy (success (aw_tools w3)) then "Task completed successfully"
                  else "Task failed without specific reason"))).
Proof.
  intros Hd Hrun Hfin. rewrite (execute_task_unfold _ _ _ Hd), Hrun. cbv zeta.
  rewrite Hfin. by destruct (truthy (success (aw_tools w3))).
Qed.

(** ** [_handle_trajectory_step] *)

(** X12.  Every call of [_handle_trajectory_step] appends exactly the step,
    stamped with the current time (a timestamp the caller had put is
    replaced), and touches nothing else; it raises KeyError exactly when the
    step has no "type" or no "step" key, and the step is recorded all the
    same. *)
Theorem handle_trajectory_step_records (now : pyval) (step : gmap string pyval)
    (w : agent_world E) :
  let after := _handle_trajectory_step now step w in
  get_trajectory after.1 = get_trajectory w ++ [<["timestamp" := now]> step]
  ∧ aw_tasks after.1 = aw_tasks w
  ∧ aw_tools after.1 = aw_tools w
  ∧ aw_env after.1 = aw_env w
  ∧ (after.2 = inr tt ↔ is_Some (step !! "type") ∧ is_Some (step !! "step"))
  ∧ (after.2 ≠ inr tt →
     ∃ key, after.2 = inl (key_error key 157) ∧ step !! key = None).
Proof.
  unfold _handle_trajectory_step, get_trajectory; simpl.
  unfold mbind, M_bind, get_trajectory_steps, set_trajectory_steps; simpl.
  rewrite !lookup_insert_ne by done.
  destruct (step !! "type") as [ty|] eqn:Hty, (step !! "step") as [st|] eqn:Hst; simpl;
    (split; [done |]); (split; [done |]); (split; [done |]); (split; [done |]).
  - split; [| done]. split; [intros _; split; eauto | done].
  - split; [split; [done | by intros [_ [? [=]]]] |]. intros _. by exists "step".
  - split; [split; [done | by intros [[? [=]] _]] |]. intros _. by exists "type".
  - split; [split; [done | by intros [[? [=]] _]] |]. intros _. by exists "type".
Qed.

End agent_properties.

(** ** [run] *)

Section run_properties.
Context {E : Type} {collaborators : Collaborators E}.

(** Inversion of a bind that returns. *)
Ltac bind_ok H :=
  apply bind_inv in H as [(? & ? & [=]) | (? & ? & ? & H)].

(** With a retry counter of 0 and [max_retries] at least 1, the [for] loop
    never returns from [run]: a failed task leaves it by [break]. *)
Lemma run_tasks_no_return (self : DroidAgent) (tasks : list nat) (step_counter : Z)
    (todo : list nat) (w w' : agent_world E) (exit : for_exit) (retry_counter : Z) :
  (0 < max_retries self)%Z →
  run_tasks self tasks step_counter todo 0 w = (w', inr (exit, retry_counter)) →
  ∀ r, exit ≠ ForReturn r.
Proof.
  intros Hretries. revert w. induction todo as [|task rest IH]; intros w Hrun r.
  - by injection Hrun as _ <- _.
  - simpl in Hrun. bind_ok Hrun.
    destruct (py_eq _ _); [| by eapply IH].
    bind_ok Hrun. bind_ok Hrun.
    match goal with o : (bool * pyval)%type |- _ => destruct o as [succeeded why] end.
    bind_ok Hrun. bind_ok Hrun. bind_ok Hrun.
    destruct succeeded; simpl in Hrun; [by eapply IH |].
    bind_ok Hrun. bind_ok Hrun.
    apply Z.ltb_lt in Hretries. rewrite Hretries in Hrun.
    by injection Hrun as _ <- _.
Qed.

Lemma planning_loop_no_return (self : DroidAgent) (remaining : nat) (step_counter : Z)
    (w w' : agent_world E) (r : run_result) :
  (0 < max_retries self)%Z →
  planning_loop self remaining step_counter 0 w ≠ (w', inr (WhileReturn r)).
Proof.
  intros Hretries. revert step_counter w.
  induction remaining as [|remaining IH]; intros step_counter w Hloop; [done |].
  simpl in Hloop. bind_ok Hloop. bind_ok Hloop.
  destruct (truthy _).
  { bind_ok Hloop. done. }
  match goal with tasks : list nat |- _ => destruct tasks as [|task tasks]; [done |] end.
  bind_ok Hloop.
  match goal with ex : (for_exit * Z)%type |- _ => destruct ex as [exit retry] end.
  match goal with H : run_tasks _ _ _ _ _ _ = _ |- _ =>
    pose proof (run_tasks_no_return _ _ _ _ _ _ _ _ Hretries H) as Hexit end.
  destruct exit; simpl in Hloop.
  - bind_ok Hloop. by eapply IH.
  - bind_ok Hloop. by eapply IH.
  - by destruct (Hexit r0).
Qed.

(** A result returned from inside the loops is the one that gives up. *)
Lemma run_tasks_return (self : DroidAgent) (tasks : list nat) (step_counter : Z)
    (todo : list nat) (w w' : agent_world E) (r : run_result) (rc rc' : Z) :
  run_tasks self tasks step_counter todo rc w = (w', inr (ForReturn r, rc')) →
  r_success r = false ∧ r_steps r = None ∧ r_task_history r = None
  ∧ (max_retries self ≤ rc)%Z.
Proof.
  revert w. induction todo as [|task rest IH]; intros w Hrun; [done |].
  simpl in Hrun. bind_ok Hrun.
  destruct (py_eq _ _); [| by eapply IH].
  bind_ok Hrun. bind_ok Hrun.
  match goal with o : (bool * pyval)%type |- _ => destruct o as [succeeded why] end.
  bind_ok Hrun. bind_ok Hrun. bind_ok Hrun.
  destruct succeeded; simpl in Hrun; [by eapply IH |].
  bind_ok Hrun. bind_ok Hrun.
  destruct (rc <? max_retries self)%Z eqn:Hlt; [done |].
  bind_ok Hrun. injection Hrun as _ <- _. apply Z.ltb_ge in Hlt. done.
Qed.

Lemma planning_loop_return (self : DroidAgent) (remaining : nat) (step_counter rc : Z)
    (w w' : agent_world E) (r : run_result) :
  planning_loop self remaining step_counter rc w = (w', inr (WhileReturn r)) →
  r_success r = false ∧ r_steps r = None ∧ r_task_history r = None.
Proof.
  revert step_counter rc w.
  induction remaining as [|remaining IH]; intros step_counter rc w Hloop; [done |].
  simpl in Hloop. bind_ok Hloop. bind_ok Hloop.
  destruct (truthy _).
  { bind_ok Hloop. done. }
  match goal with tasks : list nat |- _ => destruct tasks as [|task tasks]; [done |] end.
  bind_ok Hloop.
  match goal with ex : (for_exit * Z)%type |- _ => destruct ex as [exit retry] end.
  destruct exit; simpl in Hloop.
  - bind_ok Hloop. by eapply IH.
  - bind_ok Hloop. by eapply IH.
  - injection Hloop as _ <-.
    match goal with H : run_tasks _ _ _ _ _ _ = _ |- _ =>
      apply run_tasks_return in H as (? & ? & ? & _) end.
    done.
Qed.

(** How the [while] loop is left: the step counter stays within the steps
    allowed; success comes with the task manager's completion flag and its
    message; without success the loop ran out of steps, or the planner gave
    no task. *)
Lemma planning_loop_left (self : DroidAgent) (remaining : nat) (step_counter retry_counter : Z)
    (w w' : agent_world E) (k : Z) (ok : bool) (msg : pyval) :
  planning_loop self remaining step_counter retry_counter w = (w', inr (WhileLeft k ok msg)) →
  (step_counter ≤ k ≤ step_counter + Z.of_nat remaining)%Z
  ∧ (ok = true →
     (step_counter < k)%Z
     ∧ ∃ w1, truthy (task_completed (aw_env w1)) = true ∧ msg = message (aw_env w1))
  ∧ (ok = false →
     k = (step_counter + Z.of_nat remaining)%Z
     ∨ ((step_counter < k)%Z ∧ msg = PStr "Planner did not generate any tasks")).
Proof.
  revert step_counter retry_counter w.
  induction remaining as [|remaining IH]; intros step_counter retry_counter w Hloop.
  - injection Hloop as _ <- <- <-.
    split; [lia |]. split; [done |]. intros _. left. lia.
  - simpl in Hloop. bind_ok Hloop. bind_ok Hloop.
    match goal with H : read_env task_completed _ = _ |- _ =>
      unfold read_env in H; injection H as <- <- end.
    destruct (truthy (task_completed _)) eqn:Hcompleted.
    { bind_ok Hloop.
      match goal with H : read_env message _ = _ |- _ =>
        unfold read_env in H; injection H as <- <- end.
      injection Hloop as _ <- <- <-.
      split; [lia |]. split; [| done]. intros _. split; [lia |]. by eexists. }
    match goal with tasks : list nat |- _ => destruct tasks as [|task tasks] end.
    { injection Hloop as _ <- <- <-.
      split; [lia |]. split; [done |]. intros _. right. split; [lia | done]. }
    bind_ok Hloop.
    match goal with ex : (for_exit * Z)%type |- _ => destruct ex as [exit retry] end.
    destruct exit; simpl in Hloop; [| | done];
      bind_ok Hloop; apply IH in Hloop as (Hk & Hok & Hnot);
      (split; [lia |]); (split; [intros Ht; destruct (Hok Ht) as [? ?]; split; [lia | done] |]);
      intros Hf; destruct (Hnot Hf) as [-> | [? ->]]; [left; lia | right; split; [lia | done]
                                                     | left; lia | right; split; [lia | done]].
Qed.

(** A loop left with success was left right after a planning step: the world
    it leaves is the one the planner returned into, with the completion flag
    set; when one step was counted, that planner call was the first thing
    done. *)
Lemma planning_loop_success (self : DroidAgent) (remaining : nat)
    (step_counter retry_counter : Z) (w w' : agent_world E) (k : Z) (msg : pyval) :
  planning_loop self remaining step_counter retry_counter w = (w', inr (WhileLeft k true msg)) →
  ∃ w0 tasks,
    get_plan w0 = (w', inr tasks)
    ∧ truthy (task_completed (aw_env w')) = true
    ∧ msg = message (aw_env w')
    ∧ (step_counter < k ≤ step_counter + Z.of_nat remaining)%Z
    ∧ (k = (step_counter + 1)%Z → w0 = w).
Proof.
  revert step_counter retry_counter w.
  induction remaining as [|remaining IH]; intros step_counter retry_counter w Hloop; [done |].
  simpl in Hloop.
  apply bind_inv in Hloop as [(? & ? & [=]) | (tasks & w1 & Hplan & Hloop)].
  bind_ok Hloop.
  match goal with H : read_env task_completed _ = _ |- _ =>
    unfold read_env in H; injection H as <- <- end.
  match type of Hloop with
  | (if ?c then _ else _) _ = _ => destruct c eqn:Hcompleted
  end.
  { bind_ok Hloop.
    match goal with H : read_env message _ = _ |- _ =>
      unfold read_env in H; injection H as <- <- end.
    injection Hloop as <- <- <-.
    exists w, tasks. split; [done |]. split; [done |]. split; [done |]. split; [lia | done]. }
  destruct tasks as [|task tasks]; [done |].
  bind_ok Hloop.
  match goal with ex : (for_exit * Z)%type |- _ => destruct ex as [exit retry] end.
  destruct exit; simpl in Hloop; [| | done];
    bind_ok Hloop; apply IH in Hloop as (w0 & tasks' & Hplan' & Hflag & Hmsg & Hk & _);
    exists w0, tasks'; (split; [done |]); (split; [done |]); (split; [done |]);
    (split; [lia |]); intros ?; lia.
Qed.

(** The body of the [try] in [run]. *)
Lemma run_unfold (self : DroidAgent) (w : agent_world E) :
  ∃ body handler,
    run self w
    = try_except body handler (AgentWorld (aw_tasks w) (aw_tools w) [] (aw_env w))
    ∧ body
      = (if negb (reasoning self) then
           task ← new_task {[ "description" := PStr (goal self); "status" := STATUS_PENDING ]};
           outcome ← _execute_task_with_codeact task;
           trajectory ← get_trajectory_steps;
           mret {| r_success := outcome.1; r_reason := outcome.2; r_steps := Some 1%Z;
                   r_task_history := Some (HistoryTasks [task]);
                   r_trajectory := trajectory |}
         else
           exit ← planning_loop self (Z.to_nat (max_steps self)) 0 0;
           match exit with
           | WhileReturn r => mret r
           | WhileLeft step_counter overall_success final_message =>
               let reached := (max_steps self <=? step_counter)%Z && negb overall_success in
               let final_message :=
                 if reached then
                   PStr ("Reached maximum number of steps ("
                         +:+ pretty (max_steps self) +:+ ")")
                 else final_message in
               let overall_success := if reached then false else overall_success in
               task_history ← get_task_history;
               trajectory ← get_trajectory_steps;
               mret {| r_success := overall_success; r_reason := final_message;
                       r_steps := Some step_counter;
                       r_task_history := Some (HistoryValue task_history);
                       r_trajectory := trajectory |}
           end)
    ∧ handler
      = (λ e,
           task_history ← get_task_history;
           trajectory ← get_trajectory_steps;
           mret {| r_success := false; r_reason := PStr (exn_str e); r_steps := None;
                   r_task_history := Some (HistoryValue task_history);
                   r_trajectory := trajectory |}).
Proof. by eexists _, _. Qed.

(** What the [except] clause of [run] gives when it returns. *)
Lemma run_handler_result (e : exn) (w w' : agent_world E) (res : run_result) :
  (task_history ← get_task_history;
   trajectory ← get_trajectory_steps;
   mret {| r_success := false; r_reason := PStr (exn_str e); r_steps := None;
           r_task_history := Some (HistoryValue task_history);
           r_trajectory := trajectory |}) w = (w', inr res) →
  r_success res = false ∧ r_steps res = None ∧ is_Some (r_task_history res).
Proof.
  intros Hh. bind_ok Hh. bind_ok Hh. injection Hh as _ <-. by eauto.
Qed.

(** The result of the reasoning mode when the loop is left. *)
Lemma run_reasoning_result (self : DroidAgent) (remaining : nat) (w w' : agent_world E)
    (res : run_result) :
  (0 < max_retries self)%Z ∨ r_steps res ≠ None →
  (exit ← planning_loop self remaining 0 0;
   match exit with
   | WhileReturn r => mret r
   | WhileLeft step_counter overall_success final_message =>
       let reached := (max_steps self <=? step_counter)%Z && negb overall_success in
       let final_message :=
         if reached then
           PStr ("Reached maximum number of steps (" +:+ pretty (max_steps self) +:+ ")")
         else final_message in
       let overall_success := if reached then false else overall_success in
       task_history ← get_task_history;
       trajectory ← get_trajectory_steps;
       mret {| r_success := overall_success; r_reason := final_message;
               r_steps := Some step_counter;
               r_task_history := Some (HistoryValue task_history);
               r_trajectory := trajectory |}
   end) w = (w', inr res) →
  ∃ k ok msg w1,
    planning_loop self remaining 0 0 w = (w1, inr (WhileLeft k ok msg))
    ∧ r_steps res = Some k
    ∧ is_Some (r_task_history res)
    ∧ r_success res = (if (max_steps self <=? k)%Z && negb ok then false else ok)
    ∧ r_reason res
      = (if (max_steps self <=? k)%Z && negb ok then
           PStr ("Reached maximum number of steps (" +:+ pretty (max_steps self) +:+ ")")
         else msg).
Proof.
  intros Hcase Hbody. bind_ok Hbody.
  match goal with ex : while_exit |- _ => destruct ex as [k ok msg | r] end.
  - cbv zeta in Hbody. bind_ok Hbody. bind_ok Hbody. injection Hbody as _ <-.
    exists k, ok, msg. eexists. simpl. by eauto 10.
  - exfalso. destruct Hcase as [Hretries | Hsteps].
    + by eapply planning_loop_no_return.
    + injection Hbody as _ <-.
      match goal with H : planning_loop _ _ _ _ _ = _ |- _ =>
        apply planning_loop_return in H as (_ & ? & _) end.
      done.
Qed.

(** A normal return of the body of [run]. *)
Lemma run_returns_inv (self : DroidAgent) (w w' : agent_world E) (res : run_result) :
  run self w = (w', inr res) →
  let w0 := AgentWorld (aw_tasks w) (aw_tools w) [] (aw_env w) in
  (reasoning self = false
   ∧ ∃ task w1 ok why,
       new_task {[ "description" := PStr (goal self); "status" := STATUS_PENDING ]} w0
       = (w1, inr task)
       ∧ _execute_task_with_codeact task w1 = (w', inr (ok, why))
       ∧ res = {| r_success := ok; r_reason := why; r_steps := Some 1%Z;
                  r_task_history := Some (HistoryTasks [task]);
                  r_trajectory := aw_trajectory w' |})
  ∨ (reasoning self = true
     ∧ ∃ k ok msg w1,
         planning_loop self (Z.to_nat (max_steps self)) 0 0 w0 = (w1, inr (WhileLeft k ok msg))
         ∧ r_steps res = Some k
         ∧ is_Some (r_task_history res)
         ∧ r_success res = (if (max_steps self <=? k)%Z && negb ok then false else ok)
         ∧ r_reason res
           = (if (max_steps self <=? k)%Z && negb ok then
                PStr ("Reached maximum number of steps (" +:+ pretty (max_steps self) +:+ ")")
              else msg))
  ∨ (reasoning self = true
     ∧ r_success res = false ∧ r_steps res = None ∧ r_task_history res = None
     ∧ (max_retries self ≤ 0)%Z)
  ∨ (reasoning self = true
     ∧ r_success res = false ∧ r_steps res = None ∧ is_Some (r_task_history res)).
Proof.
  intros Hrun w0.
  destruct (run_unfold self w) as (body & handler & Heq & -> & ->).
  rewrite Heq in Hrun. fold w0 in Hrun.
  apply try_except_inv in Hrun
    as [(a & Hb & [= <-]) | [(e & _ & [=] & _) | (e & w1 & Hb & Hcls & Hh)]].
  - destruct (reasoning self) eqn:Hmode; simpl in Hb.
    + destruct (decide (r_steps res = None)) as [Hnone | Hsome].
      * right. right. left. split; [done |].
        bind_ok Hb.
        match goal with ex : while_exit |- _ => destruct ex as [k ok msg | r] end.
        { cbv zeta in Hb. bind_ok Hb. bind_ok Hb. injection Hb as _ <-. done. }
        injection Hb as _ <-.
        match goal with H : planning_loop _ _ _ _ _ = _ |- _ =>
          pose proof (planning_loop_return _ _ _ _ _ _ _ H) as (? & ? & ?) end.
        split; [done |]. split; [done |]. split; [done |].
        destruct (decide (0 < max_retries self)%Z) as [Hretries |]; [| lia].
        exfalso. by eapply planning_loop_no_return.
      * right. left. split; [done |].
        exact (run_reasoning_result self _ w0 w' res (or_intror Hsome) Hb).
    + left. split; [done |].
      bind_ok Hb. bind_ok Hb.
      match goal with o : (bool * pyval)%type |- _ => destruct o as [ok why] end.
      bind_ok Hb.
      match goal with H : get_trajectory_steps _ = _ |- _ =>
        unfold get_trajectory_steps in H; injection H as <- <- end.
      injection Hb as <- <-. by eauto 10.
  - right. right. right. split; [| by eapply run_handler_result].
    (* in direct mode the body raises no Exception: the new task has a description *)
    destruct (reasoning self); [done |]. exfalso. simpl in Hb.
    apply bind_inv in Hb as [(? & Hnew & _) | (task & w2 & Hnew & Hb)]; [done |].
    unfold new_task in Hnew. injection Hnew as <- <-.
    apply bind_inv in Hb as [(? & Hexec & [= <-]) | (o & w3 & _ & Hb)].
    + apply execute_task_raises in Hexec as (_ & _ & Hnone); [| done].
      unfold task_dict in Hnone. simpl in Hnone.
      rewrite lookup_insert_eq in Hnone. simpl in Hnone.
      by rewrite lookup_insert_eq in Hnone.
    + apply bind_inv in Hb as [(? & Htraj & _) | (? & ? & _ & Hb)]; done.
Qed.

(** X13.  With [max_retries] at least 1, [run] never gives up on a failed
    task: the retry counter is set back to 0 after every pass over the plan,
    so a failure only leads to a new plan, and the result always carries a
    task history.  The result without task history (the one that reports
    exhausted retries) is returned only in reasoning mode with
    [max_retries <= 0]. *)
Theorem run_never_gives_up (self : DroidAgent) (w w' : agent_world E) (res : run_result) :
  run self w = (w', inr res) →
  ((0 < max_retries self)%Z → is_Some (r_task_history res))
  ∧ (r_task_history res = None →
     reasoning self = true ∧ (max_retries self ≤ 0)%Z
     ∧ r_success res = false ∧ r_steps res = None).
Proof.
  intros Hrun. apply run_returns_inv in Hrun.
  destruct Hrun as [(_ & task & w1 & ok & why & _ & _ & ->)
                   | [(_ & k & ok & msg & w1 & _ & _ & [h Hh] & _)
                     | [(Hmode & Hs & Hk & Hh & Hretries) | (_ & _ & _ & [h Hh])]]].
  - split; [by eauto | done].
  - rewrite Hh. split; [by eauto | done].
  - split; [lia | done].
  - rewrite Hh. split; [by eauto | done].
Qed.

(** X14.  In reasoning mode, a result that reports its steps reports between
    0 and [max_steps] of them.  When it is not a success its reason is fixed
    by the step count: the message about the maximum number of steps once
    [max_steps] is reached (also when the planner gave no task on that last
    step), and otherwise the message that the planner gave no task. *)
Theorem run_steps_and_reason (self : DroidAgent) (w w' : agent_world E) (res : run_result)
    (k : Z) :
  reasoning self = true →
  run self w = (w', inr res) →
  r_steps res = Some k →
  (0 ≤ k ≤ Z.max 0 (max_steps self))%Z
  ∧ (r_success res = false →
     r_reason res
     = PStr (if (max_steps self <=? k)%Z then
               "Reached maximum number of steps (" +:+ pretty (max_steps self) +:+ ")"
             else "Planner did not generate any tasks")).
Proof.
  intros Hmode Hrun Hsteps. apply run_returns_inv in Hrun.
  destruct Hrun as [(Hdirect & _)
                   | [(_ & k' & ok & msg & w1 & Hloop & Hk & _ & Hs & Hr)
                     | [(_ & _ & Hnone & _) | (_ & _ & Hnone & _)]]];
    [congruence | | congruence | congruence].
  assert (k' = k) as -> by congruence.
  apply planning_loop_left in Hloop as (Hrange & _ & Hnot).
  split; [lia |].
  rewrite Hs, Hr. destruct (max_steps self <=? k)%Z eqn:Hmax; simpl.
  - by destruct ok.
  - destruct ok; [done |]. intros _.
    destruct (Hnot eq_refl) as [-> | [_ ->]]; [| done].
    apply Z.leb_gt in Hmax. lia.
Qed.

(** X15.  In reasoning mode [run] reports success only when the task
    manager's [task_completed] was set right after a planning step: the
    loop started in the initial world ends there, the planner having returned
    into a world in which the flag holds; the reason is the task manager's
    message in that world, and the task history is read from that world
    next.  At least one step was counted; when it is one step, the planner
    call was the first thing [run] did after clearing the trajectory.  Tasks
    that all complete are not enough. *)
Theorem run_success_needs_completion (self : DroidAgent) (w w' : agent_world E)
    (res : run_result) :
  reasoning self = true →
  run self w = (w', inr res) →
  r_success res = true →
  let start := AgentWorld (aw_tasks w) (aw_tools w) [] (aw_env w) in
  ∃ w0 w1 tasks task_history k,
    planning_loop self (Z.to_nat (max_steps self)) 0 0 start
    = (w1, inr (WhileLeft k true (r_reason res)))
    ∧ get_plan w0 = (w1, inr tasks)
    ∧ truthy (task_completed (aw_env w1)) = true
    ∧ r_reason res = message (aw_env w1)
    ∧ get_task_history w1 = (w', inr task_history)
    ∧ r_task_history res = Some (HistoryValue task_history)
    ∧ r_steps res = Some k ∧ (1 ≤ k ≤ max_steps self)%Z
    ∧ (k = 1%Z → w0 = start).
Proof.
  intros Hmode Hrun Hsuccess start. unfold start.
  destruct (run_unfold self w) as (body & handler & Heq & -> & ->).
  rewrite Heq, Hmode in Hrun. simpl in Hrun.
  apply try_except_inv in Hrun
    as [(a & Hb & [= <-]) | [(e & _ & [=] & _) | (e & w1 & _ & _ & Hh)]].
  - apply bind_inv in Hb as [(? & ? & [=]) | (exit & w1 & Hloop & Hb)].
    destruct exit as [k ok msg | r].
    + cbv zeta in Hb.
      apply bind_inv in Hb as [(? & ? & [=]) | (task_history & w2 & Hhistory & Hb)].
      bind_ok Hb.
      match goal with H : get_trajectory_steps _ = _ |- _ =>
        unfold get_trajectory_steps in H; injection H as <- <- end.
      injection Hb as <- <-. simpl in Hsuccess. simpl.
      destruct ok; [| by destruct (max_steps self <=? k)%Z].
      rewrite andb_false_r in *.
      pose proof Hloop as Hleft.
      apply planning_loop_success in Hloop as (w0 & tasks & Hplan & Hflag & -> & Hk & Hfirst).
      exists w0, w1, tasks, task_history, k.
      split; [done |]. split; [done |]. split; [done |]. split; [done |]. split; [done |].
      split; [done |]. split; [done |]. split; [lia |].
      intros ->. by apply Hfirst.
    + injection Hb as _ <-.
      apply planning_loop_return in Hloop as (Hfalse & _). congruence.
  - apply run_handler_result in Hh as (Hfalse & _). congruence.
Qed.



End run_properties.

(** ** Closed instances *)

Lemma execute_task_outcome_witness :
  let r := _execute_task_with_codeact (collaborators := sample_collaborators) 0
             (sample_agent_world "swipe") in
  r.2 = inr (false, PStr "Unknown failure")
  ∧ task_dict r.1 0 !! "status" = Some (PStr "failed")
  ∧ task_dict r.1 0 !! "failure_reason" = Some (PStr "Unknown failure").
Proof.
  assert (_execute_task_with_codeact (collaborators := sample_collaborators) 0
            (sample_agent_world "swipe")
          = ((_execute_task_with_codeact (collaborators := sample_collaborators) 0
                (sample_agent_world "swipe")).1,
             inr (false, PStr "Unknown failure"))) as Hrun by (vm_compute; reflexivity).
  split; [by vm_compute |].
  exact (proj2 (execute_task_outcome (collaborators := sample_collaborators) 0
    (sample_agent_world "swipe") _ false (PStr "Unknown failure") Hrun) eq_refl).
Defined.


Lemma execute_task_ignores_stale_flags_witness :
  (_execute_task_with_codeact (collaborators := sample_collaborators) 0
     (sample_agent_world "swipe")).2
  = (_execute_task_with_codeact (collaborators := sample_collaborators) 0
       (AgentWorld (aw_tasks (sample_agent_world "swipe"))
          {| finished := PBool false; success := PNone; reason := PNone |} [] 0)).2.
Proof.
  exact (proj1 (execute_task_ignores_stale_flags (collaborators := sample_collaborators) 0
    (AgentWorld (aw_tasks (sample_agent_world "swipe"))
       {| finished := PBool false; success := PNone; reason := PNone |} [] 0) idle_tools)).
Defined.

Lemma execute_task_finished_flag_witness :
  (_execute_task_with_codeact (collaborators := sample_collaborators) 0
     (sample_agent_world "open settings")).2
  = inr (true, PStr "done").
Proof.
  pose (w3 := (codeact_run (Collaborators := sample_collaborators) (PStr "open settings")
                 (started (collaborators := sample_collaborators) 0
                    (sample_agent_world "open settings"))).1).
  assert (codeact_run (Collaborators := sample_collaborators) (PStr "open settings")
            (started (collaborators := sample_collaborators) 0
               (sample_agent_world "open settings"))
          = (w3, inr (RValue PNone))) as Hrun by (vm_compute; reflexivity).
  assert (task_dict (sample_agent_world "open settings") 0 !! "description"
          = Some (PStr "open settings")) as Hd by (vm_compute; reflexivity).
  assert (truthy (finished (aw_tools w3)) = true) as Hfin by (vm_compute; reflexivity).
  pose proof (execute_task_finished_flag (collaborators := sample_collaborators) 0
    (sample_agent_world "open settings") w3 (PStr "open settings") (RValue PNone)
    Hd Hrun Hfin) as Hflag.
  rewrite Hflag. by vm_compute.
Defined.

Lemma handle_trajectory_step_records_witness :
  let step : gmap string pyval := {[ "type" := PStr "plan"; "timestamp" := PInt 1 ]} in
  let after := _handle_trajectory_step (E := nat) (PInt 5) step (sample_agent_world "swipe") in
  after.2 = inl (key_error "step" 157)
  ∧ get_trajectory after.1 = [<["timestamp" := PInt 5]> step].
Proof.
  split; [by vm_compute |].
  exact (proj1 (handle_trajectory_step_records (E := nat) (PInt 5)
    {[ "type" := PStr "plan"; "timestamp" := PInt 1 ]} (sample_agent_world "swipe"))).
Defined.

(** The run of the sample agent on the task "swipe", which the CodeAct agent
    fails: the planner is asked again until it declares the goal reached. *)
Lemma sample_run (max_steps0 max_retries0 : Z) (res : run_result) :
  (run (collaborators := sample_collaborators) (sample_agent true max_steps0 max_retries0)
     (sample_agent_world "swipe")).2 = inr res →
  run (collaborators := sample_collaborators) (sample_agent true max_steps0 max_retries0)
    (sample_agent_world "swipe")
  = ((run (collaborators := sample_collaborators) (sample_agent true max_steps0 max_retries0)
        (sample_agent_world "swipe")).1, inr res).
Proof. intros <-. by destruct (run _ _). Qed.

Lemma run_never_gives_up_witness :
  let res := {| r_success := true; r_reason := PStr "goal reached"; r_steps := Some 3%Z;
                r_task_history := Some (HistoryValue (PObj 0 true)); r_trajectory := [] |} in
  (run (collaborators := sample_collaborators) (sample_agent true 5 3)
     (sample_agent_world "swipe")).2 = inr res
  ∧ is_Some (r_task_history res).
Proof.
  assert ((run (collaborators := sample_collaborators) (sample_agent true 5 3)
             (sample_agent_world "swipe")).2
          = inr {| r_success := true; r_reason := PStr "goal reached"; r_steps := Some 3%Z;
                   r_task_history := Some (HistoryValue (PObj 0 true));
                   r_trajectory := [] |}) as Hrun by (vm_compute; reflexivity).
  split; [exact Hrun |].
  exact (proj1 (run_never_gives_up (collaborators := sample_collaborators)
    (sample_agent true 5 3) (sample_agent_world "swipe") _ _ (sample_run 5 3 _ Hrun)) eq_refl).
Defined.

Lemma run_steps_and_reason_witness :
  let res := {| r_success := false; r_reason := PStr "Reached maximum number of steps (2)";
                r_steps := Some 2%Z;
                r_task_history := Some (HistoryValue (PObj 0 true)); r_trajectory := [] |} in
  (run (collaborators := sample_collaborators) (sample_agent true 2 3)
     (sample_agent_world "swipe")).2 = inr res
  ∧ (0 ≤ 2 ≤ Z.max 0 2)%Z.
Proof.
  assert ((run (collaborators := sample_collaborators) (sample_agent true 2 3)
             (sample_agent_world "swipe")).2
          = inr {| r_success := false;
                   r_reason := PStr "Reached maximum number of steps (2)";
                   r_steps := Some 2%Z;
                   r_task_history := Some (HistoryValue (PObj 0 true));
                   r_trajectory := [] |}) as Hrun by (vm_compute; reflexivity).
  split; [exact Hrun |].
  exact (proj1 (run_steps_and_reason (collaborators := sample_collaborators)
    (sample_agent true 2 3) (sample_agent_world "swipe") _ _ 2%Z
    eq_refl (sample_run 2 3 _ Hrun) eq_refl)).
Defined.

Lemma run_success_needs_completion_witness :
  let w := sample_agent_world "swipe" in
  let final := (run (collaborators := sample_collaborators) (sample_agent true 5 3) w).1 in
  ∃ (w0 w1 : agent_world nat) (tasks : list nat) (task_history : pyval) (k : Z),
    planning_loop (collaborators := sample_collaborators) (sample_agent true 5 3) 5 0 0
      (AgentWorld (aw_tasks w) (aw_tools w) [] (aw_env w))
    = (w1, inr (WhileLeft k true (PStr "goal reached")))
    ∧ get_plan (Collaborators := sample_collaborators) w0 = (w1, inr tasks)
    ∧ truthy (task_completed (Collaborators := sample_collaborators) (aw_env w1)) = true
    ∧ PStr "goal reached" = message (Collaborators := sample_collaborators) (aw_env w1)
    ∧ get_task_history (Collaborators := sample_collaborators) w1 = (final, inr task_history)
    ∧ Some (HistoryValue (PObj 0 true)) = Some (HistoryValue task_history)
    ∧ Some 3%Z = Some k ∧ (1 ≤ k ≤ 5)%Z
    ∧ (k = 1%Z → w0 = AgentWorld (aw_tasks w) (aw_tools w) [] (aw_env w)).
Proof.
  assert ((run (collaborators := sample_collaborators) (sample_agent true 5 3)
             (sample_agent_world "swipe")).2
          = inr {| r_success := true; r_reason := PStr "goal reached"; r_steps := Some 3%Z;
                   r_task_history := Some (HistoryValue (PObj 0 true));
                   r_trajectory := [] |}) as Hrun by (vm_compute; reflexivity).
  exact (run_success_needs_completion (collaborators := sample_collaborators)
    (sample_agent true 5 3) (sample_agent_world "swipe") _ _
    eq_refl (sample_run 5 3 _ Hrun) eq_refl).
Defined.



(** ** The planner's user message *)

Lemma append_empty_r (s : string) : s +:+ "" = s.
Proof.
  induction s as [|ch s IH]; [done |].
  change (String ch (s +:+ "") = String ch s). by rewrite IH.
Qed.

Lemma contains_self (s : string) : contains s s.
Proof. exists "", "". by rewrite append_empty_r. Qed.

Lemma contains_prefix (a b : string) : contains a (a +:+ b).
Proof. exists "", b. done. Qed.

Section prompt_properties.
Context {E : Type} {collaborators : Collaborators E}.

Lemma add_remembered_spec (memory : list pyval) (acc : string) (idx : nat) :
  (∃ rest, add_remembered acc idx memory = acc +:+ rest)
  ∧ (∀ item, item ∈ memory →
       contains (". " +:+ py_str item +:+ nl) (add_remembered acc idx memory)).
Proof.
  revert acc idx. induction memory as [|item memory IH]; intros acc idx; simpl.
  - split; [exists ""; by rewrite append_empty_r | by intros ? ?%elem_of_nil].
  - destruct (IH (acc +:+ pretty idx +:+ ". " +:+ py_str item +:+ nl) (S idx))
      as [[rest Hrest] Hin].
    split.
    + eexists. rewrite Hrest. by rewrite !append_assoc.
    + intros item' [-> | Hitem]%elem_of_cons; [| by apply Hin].
      rewrite Hrest. apply contains_append_r.
      do 2 apply contains_append_l. apply contains_self.
Qed.

Lemma add_completed_spec (tasks : list (gmap string pyval)) (acc : string) :
  match add_completed acc tasks with
  | inr s =>
      (∃ rest, s = acc +:+ rest)
      ∧ Forall (λ task, is_Some (task !! "description")) tasks
      ∧ (∀ task d, task ∈ tasks → task !! "description" = Some d →
           contains ("- " +:+ py_str d +:+ nl) s)
  | inl e =>
      e = key_error "description" 200
      ∧ ¬ Forall (λ task, is_Some (task !! "description")) tasks
  end.
Proof.
  revert acc. induction tasks as [|task tasks IH]; intros acc; simpl.
  - split; [exists ""; by rewrite append_empty_r |].
    split; [done | by intros ? ? ?%elem_of_nil].
  - destruct (task !! "description") as [d|] eqn:Hd.
    + specialize (IH (acc +:+ "- " +:+ py_str d +:+ nl)).
      destruct (add_completed _ tasks) as [e | s].
      * destruct IH as [-> Hnot]. split; [done |].
        intros Hall. apply Hnot. by inversion Hall.
      * destruct IH as ([rest ->] & Hall & Hin).
        split; [eexists; by rewrite !append_assoc |].
        split; [constructor; [by rewrite Hd | done] |].
        intros task' d' [-> | Htask]%elem_of_cons Hd'; [| by eapply Hin].
        assert (d' = d) as -> by congruence.
        apply contains_append_r, contains_append_l, contains_self.
    + split; [done |]. intros Hall. inversion Hall as [|? ? [? Hsome]]. congruence.
Qed.

Lemma add_failed_spec (tasks : list (gmap string pyval)) (acc : string) :
  match add_failed acc tasks with
  | inr s =>
      (∃ rest, s = acc +:+ rest)
      ∧ Forall (λ task, is_Some (task !! "description")) tasks
      ∧ (∀ task d, task ∈ tasks → task !! "description" = Some d →
           contains
             (failed_line d (default (PStr "Unknown reason") (task !! "failure_reason"))) s)
  | inl e =>
      e = key_error "description" 206
      ∧ ¬ Forall (λ task, is_Some (task !! "description")) tasks
  end.
Proof.
  revert acc. induction tasks as [|task tasks IH]; intros acc; simpl.
  - split; [exists ""; by rewrite append_empty_r |].
    split; [done | by intros ? ? ?%elem_of_nil].
  - destruct (task !! "description") as [d|] eqn:Hd.
    + specialize (IH (acc +:+ failed_line d
                        (default (PStr "Unknown reason") (task !! "failure_reason")))).
      destruct (add_failed _ tasks) as [e | s].
      * destruct IH as [-> Hnot]. split; [done |].
        intros Hall. apply Hnot. by inversion Hall.
      * destruct IH as ([rest ->] & Hall & Hin).
        split; [eexists; by rewrite !append_assoc |].
        split; [constructor; [by rewrite Hd | done] |].
        intros task' d' [-> | Htask]%elem_of_cons Hd'; [| by eapply Hin].
        assert (d' = d) as -> by congruence.
        apply contains_append_r, contains_append_l, contains_self.
    + split; [done |]. intros Hall. inversion Hall as [|? ? [? Hsome]]. congruence.
Qed.

Lemma add_remembered_nonempty (acc : string) (idx : nat) (memory : list pyval) :
  acc ≠ "" → add_remembered acc idx memory ≠ "".
Proof.
  intros Hacc. destruct (add_remembered_spec memory acc idx) as [[rest ->] _].
  by destruct acc.
Qed.

(** The shape of the content: the prompt alone when there is no history,
    and otherwise the prompt, the task history and the closing request. *)
#[local] Arguments add_completed : simpl never.
#[local] Arguments add_failed : simpl never.
#[local] Arguments add_remembered : simpl never.

Lemma planner_user_content_inv (user_prompt : string)
    (completed_tasks failed_tasks : list (gmap string pyval)) (memory : option (list pyval))
    (s : string) :
  planner_user_content user_prompt completed_tasks failed_tasks memory = inr s →
  (completed_tasks = [] ∧ failed_tasks = [] ∧ (memory = None ∨ memory = Some [])
   ∧ s = user_prompt)
  ∨ (∃ th1 th2 remembered_info post,
       match completed_tasks with
       | [] => th1 = "### Task Execution History:" +:+ nl
       | _ :: _ =>
           add_completed ("### Task Execution History:" +:+ nl +:+ "✅ Completed Tasks:" +:+ nl)
             completed_tasks = inr th1
       end
       ∧ match failed_tasks with
         | [] => th2 = th1
         | _ :: _ => add_failed (th1 +:+ nl +:+ "❌ Failed Tasks:" +:+ nl) failed_tasks = inr th2
         end
       ∧ match memory with
         | Some (item :: rest) =>
             remembered_info
             = add_remembered (nl +:+ "### Remembered Information:" +:+ nl) 1 (item :: rest)
         | Some [] | None => remembered_info = ""
         end
       ∧ s = user_prompt +:+ nl +:+ nl +:+ th2 +:+ remembered_info +:+ nl +:+ post).
Proof.
  unfold planner_user_content.
  set (remembered_info :=
         match memory with
         | Some (item :: rest) =>
             add_remembered (nl +:+ "### Remembered Information:" +:+ nl) 1 (item :: rest)
         | Some [] | None => ""
         end).
  assert (match memory with
          | Some (item :: rest) =>
              remembered_info
              = add_remembered (nl +:+ "### Remembered Information:" +:+ nl) 1 (item :: rest)
          | Some [] | None => remembered_info = ""
          end) as Hmem by (by destruct memory as [[|? ?]|]).
  assert (remembered_info = "" → memory = None ∨ memory = Some []) as Hnone.
  { destruct memory as [[|item rest]|]; [by right | | by left].
    intros Hempty. by apply add_remembered_nonempty in Hempty. }
  destruct (bool_decide (remembered_info = "")) eqn:Hrem.
  - apply bool_decide_eq_true in Hrem.
    destruct completed_tasks as [|c cs], failed_tasks as [|f fs]; simpl.
    + intros [= <-]. left. by auto.
    + destruct (add_failed _ (f :: fs)) as [e | th2] eqn:Hf; [done |].
      intros [= <-]. right. exists ("### Task Execution History:" +:+ nl), th2, remembered_info; eexists.
      split; [done |]. split; [done || exact Hf |]. split; [done |].
      by rewrite Hrem, !append_assoc.
    + destruct (add_completed _ (c :: cs)) as [e | th1] eqn:Hc; [done |].
      intros [= <-]. right. exists th1, th1, remembered_info; eexists.
      try rewrite !append_assoc in Hc.
      split; [done || exact Hc |]. split; [done |]. split; [done |].
      by rewrite Hrem, !append_assoc.
    + destruct (add_completed _ (c :: cs)) as [e | th1] eqn:Hc; [done |].
      destruct (add_failed _ (f :: fs)) as [e | th2] eqn:Hf; [done |].
      intros [= <-]. right. exists th1, th2, remembered_info; eexists.
      try rewrite !append_assoc in Hc. try rewrite !append_assoc in Hf.
      split; [done || exact Hc |]. split; [done || exact Hf |]. split; [done |].
      by rewrite Hrem, !append_assoc.
  - rewrite orb_true_r. simpl.
    destruct completed_tasks as [|c cs], failed_tasks as [|f fs]; simpl.
    + intros [= <-]. right. exists ("### Task Execution History:" +:+ nl), ("### Task Execution History:" +:+ nl), remembered_info; eexists.
      split; [done |]. split; [done |]. split; [done |].
      by rewrite !append_assoc.
    + destruct (add_failed _ (f :: fs)) as [e | th2] eqn:Hf; [done |].
      intros [= <-]. right. exists ("### Task Execution History:" +:+ nl), th2, remembered_info; eexists.
      split; [done |]. split; [done || exact Hf |]. split; [done |].
      by rewrite !append_assoc.
    + destruct (add_completed _ (c :: cs)) as [e | th1] eqn:Hc; [done |].
      intros [= <-]. right. exists th1, th1, remembered_info; eexists.
      try rewrite !append_assoc in Hc.
      split; [done || exact Hc |]. split; [done |]. split; [done |].
      by rewrite !append_assoc.
    + destruct (add_completed _ (c :: cs)) as [e | th1] eqn:Hc; [done |].
      destruct (add_failed _ (f :: fs)) as [e | th2] eqn:Hf; [done |].
      intros [= <-]. right. exists th1, th2, remembered_info; eexists.
      try rewrite !append_assoc in Hc. try rewrite !append_assoc in Hf.
      split; [done || exact Hc |]. split; [done || exact Hf |]. split; [done |].
      by rewrite !append_assoc.
Qed.

(** X18.  The content of the planner's user message always starts with the
    planner's user prompt, and it is the prompt alone exactly when there is
    no completed task, no failed task and no remembered item. *)
Theorem planner_prompt_prefix (user_prompt : string)
    (completed_tasks failed_tasks : list (gmap string pyval)) (memory : option (list pyval))
    (s : string) :
  planner_user_content user_prompt completed_tasks failed_tasks memory = inr s →
  ∃ rest,
    s = user_prompt +:+ rest
    ∧ (rest = ""
       ↔ completed_tasks = [] ∧ failed_tasks = [] ∧ (memory = None ∨ memory = Some [])).
Proof.
  intros Hcontent. pose proof Hcontent as Hinv.
  apply planner_user_content_inv in Hinv
    as [(-> & -> & Hmem & ->) | (th1 & th2 & r & post & _ & _ & _ & ->)].
  - exists "". by rewrite append_empty_r.
  - eexists. split; [done |]. split; [done |].
    intros (-> & -> & Hmem). exfalso.
    assert (planner_user_content user_prompt [] [] memory = inr user_prompt) as Hplain
      by (by destruct Hmem as [-> | ->]).
    rewrite Hplain in Hcontent. injection Hcontent as Heq.
    rewrite <- (append_empty_r user_prompt) in Heq at 1.
    by apply String.app_inj in Heq.
Qed.

(** X19.  Whatever history there is reaches the planner: the content holds a
    line for every completed task, a line with the failure reason (or
    "Unknown reason" when the task has none) for every failed task, and every
    remembered item. *)
Theorem planner_prompt_lists_history (user_prompt : string)
    (completed_tasks failed_tasks : list (gmap string pyval)) (memory : option (list pyval))
    (s : string) :
  planner_user_content user_prompt completed_tasks failed_tasks memory = inr s →
  (∀ task description,
     task ∈ completed_tasks → task !! "description" = Some description →
     contains ("- " +:+ py_str description +:+ nl) s)
  ∧ (∀ task description,
       task ∈ failed_tasks → task !! "description" = Some description →
       contains
         ("- " +:+ py_str description +:+ " (Failed: "
          +:+ py_str (default (PStr "Unknown reason") (task !! "failure_reason"))
          +:+ ")" +:+ nl) s)
  ∧ (∀ items item,
       memory = Some items → item ∈ items → contains (". " +:+ py_str item +:+ nl) s).
Proof.
  intros Hcontent.
  apply planner_user_content_inv in Hcontent
    as [(-> & -> & Hmem & ->) | (th1 & th2 & r & post & Hc & Hf & Hr & ->)].
  - split; [by intros ? ? ?%elem_of_nil |]. split; [by intros ? ? ?%elem_of_nil |].
    intros items item -> Hin. destruct Hmem as [[=] | [= ->]]. by apply elem_of_nil in Hin.
  - assert (∀ line, contains line th2 →
              contains line (user_prompt +:+ nl +:+ nl +:+ th2 +:+ r +:+ nl +:+ post)) as Hth2.
    { intros line Hline. do 3 apply contains_append_l. by apply contains_append_r. }
    assert (∀ line, contains line th1 → contains line th2) as Hth1.
    { intros line Hline. destruct failed_tasks as [|f fs]; [by subst |].
      pose proof (add_failed_spec (f :: fs) (th1 +:+ nl +:+ "❌ Failed Tasks:" +:+ nl)) as Hspec.
      rewrite Hf in Hspec. destruct Hspec as ([rest ->] & _).
      by do 2 apply contains_append_r. }
    split; [| split].
    + intros task d Hin Hd. apply Hth2, Hth1.
      destruct completed_tasks as [|c cs]; [by apply elem_of_nil in Hin |].
      pose proof (add_completed_spec (c :: cs)
        ("### Task Execution History:" +:+ nl +:+ "✅ Completed Tasks:" +:+ nl)) as Hspec.
      rewrite Hc in Hspec. destruct Hspec as (_ & _ & Hlines). by eapply Hlines.
    + intros task d Hin Hd. apply Hth2.
      destruct failed_tasks as [|f fs]; [by apply elem_of_nil in Hin |].
      pose proof (add_failed_spec (f :: fs) (th1 +:+ nl +:+ "❌ Failed Tasks:" +:+ nl)) as Hspec.
      rewrite Hf in Hspec. destruct Hspec as (_ & _ & Hlines).
      by apply (Hlines task d).
    + intros items item -> Hin.
      destruct items as [|i rest]; [by apply elem_of_nil in Hin |]. subst r.
      do 4 apply contains_append_l. apply contains_append_r.
      by apply add_remembered_spec.
Qed.

(** X20.  The message is built exactly when every completed and every failed
    task has a description; otherwise building it raises KeyError for the key
    description (an instance of Exception, which [run] turns into a failure
    result). *)
Theorem planner_prompt_key_error (user_prompt : string)
    (completed_tasks failed_tasks : list (gmap string pyval)) (memory : option (list pyval)) :
  let content := planner_user_content user_prompt completed_tasks failed_tasks memory in
  ((∃ s, content = inr s)
   ↔ Forall (λ task, is_Some (task !! "description")) completed_tasks
     ∧ Forall (λ task, is_Some (task !! "description")) failed_tasks)
  ∧ (∀ e, content = inl e →
       exn_class_of e = KeyError ∧ exn_str e = "'description'"
       ∧ cls_is_Exception (exn_class_of e) = true).
Proof.
  unfold planner_user_content.
  set (remembered_info :=
         match memory with
         | Some (item :: rest) =>
             add_remembered (nl +:+ "### Remembered Information:" +:+ nl) 1 (item :: rest)
         | Some [] | None => ""
         end).
  destruct completed_tasks as [|c cs], failed_tasks as [|f fs]; simpl.
  - split.
    + split; [by intros _ | intros _].
      destruct (negb (bool_decide (remembered_info = ""))); by eexists.
    + intros e. by destruct (negb (bool_decide (remembered_info = ""))).
  - pose proof (add_failed_spec (f :: fs)
      (("### Task Execution History:" +:+ nl) +:+ nl +:+ "❌ Failed Tasks:" +:+ nl)) as Hspec.
    destruct (add_failed _ (f :: fs)) as [e | th2].
    + destruct Hspec as [-> Hnot]. split; [| by intros ? [= <-]].
      split; [by intros [? [=]] | by intros [_ ?]].
    + destruct Hspec as (_ & Hall & _). split; [| done].
      split; [done | intros _; by eexists].
  - pose proof (add_completed_spec (c :: cs)
      (("### Task Execution History:" +:+ nl) +:+ "✅ Completed Tasks:" +:+ nl)) as Hspec.
    destruct (add_completed _ (c :: cs)) as [e | th1].
    + destruct Hspec as [-> Hnot]. split; [| by intros ? [= <-]].
      split; [by intros [? [=]] | by intros [? _]].
    + destruct Hspec as (_ & Hall & _). split; [| done].
      split; [done | intros _; by eexists].
  - pose proof (add_completed_spec (c :: cs)
      (("### Task Execution History:" +:+ nl) +:+ "✅ Completed Tasks:" +:+ nl)) as Hspec.
    destruct (add_completed _ (c :: cs)) as [e | th1].
    + destruct Hspec as [-> Hnot]. split; [| by intros ? [= <-]].
      split; [by intros [? [=]] | by intros [? _]].
    + destruct Hspec as (_ & Hall & _).
      pose proof (add_failed_spec (f :: fs) (th1 +:+ nl +:+ "❌ Failed Tasks:" +:+ nl))
        as Hspec.
      destruct (add_failed _ (f :: fs)) as [e | th2].
      * destruct Hspec as [-> Hnot]. split; [| by intros ? [= <-]].
        split; [by intros [? [=]] | by intros [_ ?]].
      * destruct Hspec as (_ & Hall' & _). split; [| done].
        split; [done | intros _; by eexists].
Qed.

End prompt_properties.

Lemma planner_prompt_prefix_witness :
  ∃ rest,
    "Open the settings." = "Open the settings." +:+ rest
    ∧ (rest = ""
       ↔ @nil (gmap string pyval) = [] ∧ @nil (gmap string pyval) = []
         ∧ (Some (@nil pyval) = None ∨ Some (@nil pyval) = Some [])).
Proof.
  exact (planner_prompt_prefix (collaborators := sample_collaborators)
           "Open the settings." [] [] (Some []) "Open the settings." eq_refl).
Defined.

Lemma planner_prompt_lists_history_witness :
  ∃ s,
    planner_user_content (collaborators := sample_collaborators) "Open the settings."
      [{[ "description" := PStr "Unlock the phone" ]}]
      [{[ "description" := PStr "Open Wi-Fi" ]}] (Some [PStr "PIN is 1234"]) = inr s
    ∧ contains ("- Unlock the phone" +:+ nl) s
    ∧ contains ("- Open Wi-Fi (Failed: Unknown reason)" +:+ nl) s
    ∧ contains (". PIN is 1234" +:+ nl) s.
Proof.
  eexists. split; [reflexivity |].
  pose proof (planner_prompt_lists_history (collaborators := sample_collaborators)
    "Open the settings." [{[ "description" := PStr "Unlock the phone" ]}]
    [{[ "description" := PStr "Open Wi-Fi" ]}] (Some [PStr "PIN is 1234"]) _ eq_refl)
    as (Hc & Hf & Hm).
  split; [| split].
  - exact (Hc _ (PStr "Unlock the phone") (list_elem_of_here _ _) eq_refl).
  - exact (Hf _ (PStr "Open Wi-Fi") (list_elem_of_here _ _) eq_refl).
  - exact (Hm _ (PStr "PIN is 1234") eq_refl (list_elem_of_here _ _)).
Defined.

Lemma planner_prompt_key_error_witness :
  planner_user_content (collaborators := sample_collaborators) "Open the settings."
    [{[ "description" := PStr "Unlock the phone" ]}; {[ "status" := PStr "completed" ]}]
    [] None
  = inl (key_error "description" 200)
  ∧ exn_class_of (key_error "description" 200) = KeyError
  ∧ exn_str (key_error "description" 200) = "'description'"
  ∧ cls_is_Exception (exn_class_of (key_error "description" 200)) = true.
Proof.
  split; [reflexivity |].
  exact (proj2 (planner_prompt_key_error (collaborators := sample_collaborators)
                  "Open the settings."
                  [{[ "description" := PStr "Unlock the phone" ]};
                   {[ "status" := PStr "completed" ]}]
                  [] None) (key_error "description" 200) eq_refl).
Defined.
